(** * Valuation engine of the equity research app: a shallow embedding

    The development follows [valuation_functions.py], class
    [EquityValuation]: the ratio table, the WACC estimate, the DCF
    pipeline and the summary with its recommendation label.

    Numbers.  The program computes on Python numbers ([int], [float])
    read from the provider's fundamentals dictionary and on the cells of
    a pandas frame (numpy scalars).  Both are embedded as exact rationals
    extended with the three special values of IEEE arithmetic, together
    with a tag that records which of the two families a value belongs
    to, because the families differ on a zero divisor: Python's own
    numbers raise [ZeroDivisionError], numpy scalars yield an infinity or
    a NaN.  Rounding, overflow to infinity and the sign of zero are not
    represented: finite arithmetic is exact.  The entries of the
    fundamentals dictionary, which the provider decodes from JSON, and the
    arguments documented as [float] are finite builtin numbers.  A null
    entry ([None]) is represented where the ratio block multiplies or
    tests it (the six percentage metrics and [dividendYield]): there it
    decides how far the block runs.  A null at a metric that the block
    only copies changes no control flow and is not represented. *)

From Stdlib Require Import ZArith QArith Qabs Qpower Lqa Lia.
From stdpp Require Import base option list strings gmap.

Local Open Scope Z_scope.

(** ** Extended rationals *)

Inductive xq : Type :=
| Fin (q : Q)
| PInf
| NInf
| NaN.

Definition Qsgn (q : Q) : Z := Z.sgn (Qnum q).

Definition inf_of_sign (s : Z) : xq :=
  match s with
  | Z0 => NaN
  | Zpos _ => PInf
  | Zneg _ => NInf
  end.

Definition xq_sgn (x : xq) : Z :=
  match x with
  | Fin q => Qsgn q
  | PInf => 1
  | NInf => -1
  | NaN => 0
  end.

Definition xq_opp (x : xq) : xq :=
  match x with
  | Fin q => Fin (- q)
  | PInf => NInf
  | NInf => PInf
  | NaN => NaN
  end.

Definition xq_add (x y : xq) : xq :=
  match x, y with
  | NaN, _ | _, NaN => NaN
  | Fin a, Fin b => Fin (a + b)
  | PInf, NInf | NInf, PInf => NaN
  | PInf, _ | _, PInf => PInf
  | NInf, _ | _, NInf => NInf
  end.

Definition xq_sub (x y : xq) : xq := xq_add x (xq_opp y).

Definition xq_mul (x y : xq) : xq :=
  match x, y with
  | NaN, _ | _, NaN => NaN
  | Fin a, Fin b => Fin (a * b)
  | _, _ => inf_of_sign (xq_sgn x * xq_sgn y)
  end.

Definition Qis_zero (q : Q) : bool := Qeq_bool q 0.

(** Division as numpy performs it: a zero divisor gives an infinity of
    the dividend's sign, or NaN for a zero dividend. *)
Definition xq_div (x y : xq) : xq :=
  match x, y with
  | NaN, _ | _, NaN => NaN
  | Fin a, Fin b => if Qis_zero b then inf_of_sign (Qsgn a) else Fin (a / b)
  | Fin _, _ => Fin 0
  | _, Fin b => if Qis_zero b then x else inf_of_sign (xq_sgn x * Qsgn b)
  | _, _ => NaN
  end.

(** [x ** n] for an integer exponent: a product of [n] factors for
    [n > 0] (an infinity keeps or alternates its sign), [1] for [n = 0]
    whatever [x] is, and the inverse of the positive power for [n < 0]. *)
Definition xq_pow_pos (x : xq) (p : positive) : xq :=
  match x with
  | Fin q => Fin (Qpower_positive q p)
  | PInf => PInf
  | NInf => if Z.even (Zpos p) then PInf else NInf
  | NaN => NaN
  end.

Definition xq_pow (x : xq) (n : Z) : xq :=
  match n with
  | Z0 => Fin 1
  | Zpos p => xq_pow_pos x p
  | Zneg p => xq_div (Fin 1) (xq_pow_pos x p)
  end.

(** Comparisons: every comparison with NaN is false. *)
Definition xq_ltb (x y : xq) : bool :=
  match x, y with
  | NaN, _ | _, NaN => false
  | Fin a, Fin b => negb (Qle_bool b a)
  | Fin _, PInf | NInf, Fin _ | NInf, PInf => true
  | _, _ => false
  end.

Definition xq_is_zero (x : xq) : bool :=
  match x with
  | Fin q => Qis_zero q
  | _ => false
  end.

(** Equality up to the representation of a fraction. *)
Definition xq_eq (x y : xq) : Prop :=
  match x, y with
  | Fin a, Fin b => (a == b)%Q
  | PInf, PInf | NInf, NInf | NaN, NaN => True
  | _, _ => False
  end.

(** ** Tagged numbers and Python's exceptions *)

Inductive kind : Type :=
| Py   (* a builtin int or float *)
| Np.  (* a numpy.float64 scalar *)

Definition kind_join (k1 k2 : kind) : kind :=
  match k1, k2 with
  | Py, Py => Py
  | _, _ => Np
  end.

Record num : Type := Num { kind_of : kind; val : xq }.

Definition py (q : Q) : num := Num Py (Fin q).
Definition np (q : Q) : num := Num Np (Fin q).
(** [np.nan] is a builtin float. *)
Definition np_nan : num := Num Py NaN.

Inductive exn : Type :=
| ZeroDivisionError
| KeyError
| IndexError
| TypeError.

Inductive res (A : Type) : Type :=
| Ok (a : A)
| Raise (e : exn).
Arguments Ok {A} a.
Arguments Raise {A} e.

#[global] Instance res_ret : MRet res := fun A a => Ok a.
#[global] Instance res_bind : MBind res := fun A B f m =>
  match m with
  | Ok a => f a
  | Raise e => Raise e
  end.

Definition lift2 (f : xq -> xq -> xq) (a b : num) : num :=
  Num (kind_join (kind_of a) (kind_of b)) (f (val a) (val b)).

Definition num_add : num -> num -> num := lift2 xq_add.
Definition num_sub : num -> num -> num := lift2 xq_sub.
Definition num_mul : num -> num -> num := lift2 xq_mul.

(** [a / b]: between two builtin numbers a zero divisor raises; as soon
    as one operand is a numpy scalar the numpy rule applies. *)
Definition num_div (a b : num) : res num :=
  match kind_of a, kind_of b with
  | Py, Py => if xq_is_zero (val b) then Raise ZeroDivisionError
              else Ok (lift2 xq_div a b)
  | _, _ => Ok (lift2 xq_div a b)
  end.

(** [a ** n] for an int [n]; a builtin zero to a negative power raises. *)
Definition num_pow (a : num) (n : Z) : res num :=
  match kind_of a with
  | Py => if xq_is_zero (val a) && (n <? 0) then Raise ZeroDivisionError
          else Ok (Num Py (xq_pow (val a) n))
  | Np => Ok (Num Np (xq_pow (val a) n))
  end.

Definition num_gtb (a b : num) : bool := xq_ltb (val b) (val a).
Definition num_ltb (a b : num) : bool := xq_ltb (val a) (val b).

(** Truth value of a number: false exactly for zero. *)
Definition num_truthy (a : num) : bool := negb (xq_is_zero (val a)).

(** ** Helpers for the Python constructs of the source *)

(** [range(1, n + 1)] *)
Definition range_1 (n : Z) : list Z := seqZ 1 n.

(** [l[-1]] *)
Definition last_item {A : Type} (l : list A) : res A :=
  match last l with
  | Some a => Ok a
  | None => Raise IndexError
  end.

(** [d[k]] *)
Definition getitem {A : Type} (d : gmap string A) (k : string) : res A :=
  match d !! k with
  | Some a => Ok a
  | None => Raise KeyError
  end.

(** [d.get(k, dflt)] on a dictionary of builtin numbers *)
Definition get (d : gmap string Q) (k : string) (dflt : num) : num :=
  from_option py dflt (d !! k).

(** a loop that appends one computed item per element *)
Fixpoint for_append {A B : Type} (f : A -> res B) (l : list A) : res (list B) :=
  match l with
  | [] => Ok []
  | a :: l' => b ← f a; bs ← for_append f l'; Ok (b :: bs)
  end.

(** [enumerate(l)] *)
Definition enumerate {A : Type} (l : list A) : list (Z * A) :=
  imap (fun i a => (Z.of_nat i, a)) l.

(** [sum(l)]: a left fold that starts from the int [0]. *)
Definition py_sum (l : list num) : num := foldl num_add (py 0) l.

(** ** The engine *)

(** What [calculate_beta] hands back. *)
Record BetaData : Type := { beta : num; alpha : num; r_squared : num }.

(** The metrics that [calculate_financial_ratios] multiplies by 100 or
    tests for truth, in the order of its lines. *)
Inductive RatioMetric : Type :=
| ReturnOnEquity
| ReturnOnAssets
| GrossMargins
| OperatingMargins
| ProfitMargins
| DividendYield
| PayoutRatio.

Definition metric_key (m : RatioMetric) : string :=
  match m with
  | ReturnOnEquity => "returnOnEquity"
  | ReturnOnAssets => "returnOnAssets"
  | GrossMargins => "grossMargins"
  | OperatingMargins => "operatingMargins"
  | ProfitMargins => "profitMargins"
  | DividendYield => "dividendYield"
  | PayoutRatio => "payoutRatio"
  end.

(** An entry of the fundamentals as decoded from JSON: [None] or a number. *)
Inductive json : Type :=
| JNull
| JNum (q : Q).

(** The instance after [get_financial_data]: the two rates of the
    constructor, the numeric and the textual entries of [stock.info], the
    metrics of the ratio block whose entry is a null ([None]; a metric so
    marked is null whatever [info] holds at its key), the cash-flow
    statement (a row label to the row's cells, most recent first) and
    the result of [calculate_beta], which fetches two price histories and
    runs a regression and is taken here by its result. *)
Record EquityValuation : Type := {
  risk_free_rate : Q;
  market_return : Q;
  info : gmap string Q;
  null_metric : RatioMetric -> bool;
  info_text : gmap string string;
  cash_flow : gmap string (list num);
  beta_data : BetaData
}.

(** The state of a [try] block that fills a dictionary line by line:
    still running, or stopped by an exception with what was written. *)
Inductive filling : Type :=
| Running (ratios : gmap string num)
| Stopped (ratios : gmap string num) (e : exn).

(** [ratios[k] = v]: the right-hand side is evaluated first, and nothing
    runs once the block has stopped. *)
Definition set_item (k : string) (v : res num) (st : filling) : filling :=
  match st with
  | Running ratios =>
      match v with
      | Ok x => Running (<[k := x]> ratios)
      | Raise e => Stopped ratios e
      end
  | Stopped _ _ => st
  end.

(** [return ratios] after the block: the handler only prints the error,
    so the dictionary is returned as far as it was written. *)
Definition written (st : filling) : gmap string num :=
  match st with
  | Running ratios => ratios
  | Stopped ratios _ => ratios
  end.

(** No line has raised so far. *)
Definition running (st : filling) : bool :=
  match st with
  | Running _ => true
  | Stopped _ _ => false
  end.

Definition returned {A : Type} (r : res A) : bool :=
  match r with
  | Ok _ => true
  | Raise _ => false
  end.

Definition calculate_beta (self : EquityValuation) : BetaData := beta_data self.

(** [frame.loc[row, :].iloc[0]] *)
Definition loc_iloc0 (frame : gmap string (list num)) (row : string) : res num :=
  cells ← getitem frame row;
  match cells with
  | c :: _ => Ok c
  | [] => Raise IndexError
  end.

(** The locals of the projection and discounting steps of the DCF. *)
Record DcfFlows : Type := {
  fcff_projections : list num;
  terminal_fcff : num;
  terminal_value : num;
  present_values : list num;
  pv_terminal : num;
  enterprise_value : num
}.

(** An entry of the summary: a number or a text. *)
Inductive pyval : Type :=
| VNum (n : num)
| VStr (s : string).

Section Engine.
Variable self : EquityValuation.

(** *** calculate_financial_ratios *)

(** [self.info.get(key)] for a metric of the ratio block. *)
Definition info_entry (m : RatioMetric) : option json :=
  if null_metric self m then Some JNull
  else JNum <$> info self !! metric_key m.

(** [self.info.get(key, np.nan) * 100]: [None * 100] raises TypeError. *)
Definition pct (m : RatioMetric) : res num :=
  match info_entry m with
  | Some JNull => Raise TypeError
  | Some (JNum q) => Ok (num_mul (py q) (py 100))
  | None => Ok (num_mul np_nan (py 100))
  end.

(** [self.info.get(key, np.nan) * 100 if self.info.get(key) else 0]: the
    test comes first, and a null is false. *)
Definition dividend_yield : res num :=
  match info_entry DividendYield with
  | Some (JNum d) => if num_truthy (py d) then Ok (num_mul (py d) (py 100)) else Ok (py 0)
  | Some JNull => Ok (py 0)
  | None => Ok (py 0)
  end.

(** The [try] block and the [return] after its handler. *)
Definition calculate_financial_ratios : gmap string num :=
  let ratios := Running ∅ in
  let ratios := set_item "current_price" (Ok (get (info self) "currentPrice" np_nan)) ratios in
  let ratios := set_item "market_cap" (Ok (get (info self) "marketCap" np_nan)) ratios in
  let ratios := set_item "shares_outstanding"
                         (Ok (get (info self) "sharesOutstanding" np_nan)) ratios in
  let ratios := set_item "roe" (pct ReturnOnEquity) ratios in
  let ratios := set_item "roa" (pct ReturnOnAssets) ratios in
  let ratios := set_item "gross_margin" (pct GrossMargins) ratios in
  let ratios := set_item "operating_margin" (pct OperatingMargins) ratios in
  let ratios := set_item "profit_margin" (pct ProfitMargins) ratios in
  let ratios := set_item "pe_ratio" (Ok (get (info self) "trailingPE" np_nan)) ratios in
  let ratios := set_item "forward_pe" (Ok (get (info self) "forwardPE" np_nan)) ratios in
  let ratios := set_item "pb_ratio" (Ok (get (info self) "priceToBook" np_nan)) ratios in
  let ratios := set_item "ps_ratio"
                         (Ok (get (info self) "priceToSalesTrailing12Months" np_nan)) ratios in
  let ratios := set_item "ev_ebitda" (Ok (get (info self) "enterpriseToEbitda" np_nan)) ratios in
  let ratios := set_item "ev_revenue" (Ok (get (info self) "enterpriseToRevenue" np_nan)) ratios in
  let ratios := set_item "current_ratio" (Ok (get (info self) "currentRatio" np_nan)) ratios in
  let ratios := set_item "quick_ratio" (Ok (get (info self) "quickRatio" np_nan)) ratios in
  let ratios := set_item "debt_equity" (Ok (get (info self) "debtToEquity" np_nan)) ratios in
  let ratios := set_item "debt_ebitda" (Ok (get (info self) "debtToEbitda" np_nan)) ratios in
  let ratios := set_item "dividend_yield" dividend_yield ratios in
  let ratios := set_item "payout_ratio" (pct PayoutRatio) ratios in
  written ratios.

(** *** calculate_wacc *)

(** The estimate made when [cost_of_debt] is [None]. *)
Definition estimate_cost_of_debt : res num :=
  let interest_expense := get (info self) "interestExpense" (py 0) in
  let total_debt := get (info self) "totalDebt" (py 1) in
  if num_gtb total_debt (py 0) then num_div interest_expense total_debt
  else Ok (py 0.06).

Definition wacc_body (beta : num) (cost_of_debt : option Q) (tax_rate : Q)
  : res (gmap string num) :=
  let cost_of_equity :=
    num_add (py (risk_free_rate self))
            (num_mul beta (num_sub (py (market_return self)) (py (risk_free_rate self)))) in
  cost_of_debt ← match cost_of_debt with
                 | None => estimate_cost_of_debt
                 | Some c => Ok (py c)
                 end;
  let market_cap := get (info self) "marketCap" (py 1) in
  let total_debt := get (info self) "totalDebt" (py 0) in
  equity_weight ← num_div market_cap (num_add market_cap total_debt);
  debt_weight ← num_div total_debt (num_add market_cap total_debt);
  let wacc :=
    num_add (num_mul equity_weight cost_of_equity)
            (num_mul (num_mul debt_weight cost_of_debt) (num_sub (py 1) (py tax_rate))) in
  Ok (<["wacc" := wacc]> (<["cost_of_equity" := cost_of_equity]>
      (<["cost_of_debt" := cost_of_debt]> (<["equity_weight" := equity_weight]>
      (<["debt_weight" := debt_weight]> ∅))))).

Definition wacc_fallback : gmap string num :=
  <["wacc" := py 0.09]> (<["cost_of_equity" := py 0.10]>
  (<["cost_of_debt" := py 0.06]> ∅)).

(** The bare [except:] turns every exception of the body into the
    fallback dictionary. *)
Definition calculate_wacc (beta : num) (cost_of_debt : option Q) (tax_rate : Q)
  : gmap string num :=
  match wacc_body beta cost_of_debt tax_rate with
  | Ok d => d
  | Raise _ => wacc_fallback
  end.

(** *** dcf_valuation *)

Definition project (fcff : num) (growth_rate : Q) (year : Z) : res num :=
  g ← num_pow (num_add (py 1) (py growth_rate)) year;
  Ok (num_mul fcff g).

Definition discount_flow (wacc : num) (item : Z * num) : res num :=
  d ← num_pow (num_add (py 1) wacc) (item.1 + 1);
  num_div item.2 d.

(** Projection, terminal value and discounting (the part of the body
    between the WACC and the net debt). *)
Definition dcf_flows (fcff wacc : num) (growth_rate terminal_growth : Q) (years : Z)
  : res DcfFlows :=
  fcff_projections ← for_append (project fcff growth_rate) (range_1 years);
  fcff_last ← last_item fcff_projections;
  let terminal_fcff := num_mul fcff_last (num_add (py 1) (py terminal_growth)) in
  terminal_value ← num_div terminal_fcff (num_sub wacc (py terminal_growth));
  present_values ← for_append (discount_flow wacc) (enumerate fcff_projections);
  d ← num_pow (num_add (py 1) wacc) years;
  pv_terminal ← num_div terminal_value d;
  let enterprise_value := num_add (py_sum present_values) pv_terminal in
  Ok {| fcff_projections := fcff_projections;
        terminal_fcff := terminal_fcff;
        terminal_value := terminal_value;
        present_values := present_values;
        pv_terminal := pv_terminal;
        enterprise_value := enterprise_value |}.

Definition dcf_body (growth_rate terminal_growth : Q) (years : Z)
  : res (gmap string num) :=
  operating_cash_flow ← loc_iloc0 (cash_flow self) "Operating Cash Flow";
  capital_expenditure ← loc_iloc0 (cash_flow self) "Capital Expenditure";
  let fcff := num_add operating_cash_flow capital_expenditure in
  let beta_data := calculate_beta self in
  let wacc_data := calculate_wacc (beta beta_data) None 0.34 in
  wacc ← getitem wacc_data "wacc";
  flows ← dcf_flows fcff wacc growth_rate terminal_growth years;
  let net_debt := num_sub (get (info self) "totalDebt" (py 0))
                          (get (info self) "cash" (py 0)) in
  let equity_value := num_sub (enterprise_value flows) net_debt in
  let shares := get (info self) "sharesOutstanding" (py 1) in
  intrinsic_value ← num_div equity_value shares;
  margin ← num_div (num_sub intrinsic_value (get (info self) "currentPrice" (py 0)))
                   intrinsic_value;
  Ok (<["intrinsic_value" := intrinsic_value]>
      (<["enterprise_value" := enterprise_value flows]>
      (<["equity_value" := equity_value]>
      (<["current_fcff" := fcff]>
      (<["wacc" := wacc]>
      (<["margin_of_safety" := num_mul margin (py 100)]> ∅)))))).

(** [None] is Python's [None]: the DCF result is unavailable. The
    handler also prints the error, which is not represented. *)
Definition dcf_valuation (growth_rate terminal_growth : Q) (years : Z)
  : option (gmap string num) :=
  match dcf_body growth_rate terminal_growth years with
  | Ok d => Some d
  | Raise _ => None
  end.

(** *** get_summary *)

(** [summary.update(d)] *)
Definition update (summary : gmap string pyval) (d : gmap string num)
  : gmap string pyval := (VNum <$> d) ∪ summary.

Definition beta_dict (b : BetaData) : gmap string num :=
  <["beta" := beta b]> (<["alpha" := alpha b]> (<["r_squared" := r_squared b]> ∅)).

(** The arms of the if/elif chain on [discount]: label and colour. *)
Definition recommendation (discount : num) : string * string :=
  if num_gtb discount (py 20) then ("COMPRAR", "green")
  else if num_gtb discount (py 10) then ("ACUMULAR", "lightgreen")
  else if num_ltb discount (py (-20)) then ("VENDER", "red")
  else if num_ltb discount (py (-10)) then ("REDUZIR", "orange")
  else ("NEUTRO", "yellow").

(** An entry of the summary used as a number. *)
Definition entry_num (v : pyval) : res num :=
  match v with
  | VNum n => Ok n
  | VStr _ => Raise TypeError
  end.

(** The summary before the recommendation is derived. *)
Definition summary_base : gmap string pyval :=
  let summary : gmap string pyval := ∅ in
  let summary := <["company_name" := VStr (default "N/A" (info_text self !! "longName"))]> summary in
  let summary := <["sector" := VStr (default "N/A" (info_text self !! "sector"))]> summary in
  let summary := <["industry" := VStr (default "N/A" (info_text self !! "industry"))]> summary in
  let dcf_result := dcf_valuation 0.05 0.03 5 in
  let summary := match dcf_result with
                 | Some d => if bool_decide (d = ∅) then summary else update summary d
                 | None => summary
                 end in
  let ratios := calculate_financial_ratios in
  let summary := update summary ratios in
  let beta_data := calculate_beta self in
  update summary (beta_dict beta_data).

Definition get_summary : res (gmap string pyval) :=
  let summary := summary_base in
  let current_price := get (info self) "currentPrice" (py 0) in
  intrinsic_value ← entry_num (default (VNum (py 0)) (summary !! "intrinsic_value"));
  if num_gtb intrinsic_value (py 0) then
    ratio ← num_div (num_sub intrinsic_value current_price) current_price;
    let discount := num_mul ratio (py 100) in
    let summary := <["discount" := VNum discount]> summary in
    let summary := <["recommendation" := VStr (recommendation discount).1]> summary in
    let summary := <["recommendation_color" := VStr (recommendation discount).2]> summary in
    Ok summary
  else Ok summary.

End Engine.

(** ** Statements in the specification's words and worked inputs *)

(** The same instance with another fundamentals dictionary. *)
Definition with_info (self : EquityValuation) (i : gmap string Q) : EquityValuation :=
  {| risk_free_rate := risk_free_rate self;
     market_return := market_return self;
     info := i;
     null_metric := null_metric self;
     info_text := info_text self;
     cash_flow := cash_flow self;
     beta_data := beta_data self |}.

(** The same instance with other nulls among the metrics of the ratio
    block. *)
Definition with_nulls (self : EquityValuation) (nulls : RatioMetric -> bool)
  : EquityValuation :=
  {| risk_free_rate := risk_free_rate self;
     market_return := market_return self;
     info := info self;
     null_metric := nulls;
     info_text := info_text self;
     cash_flow := cash_flow self;
     beta_data := beta_data self |}.

(** The ratios stored as percentages, each with its metric. *)
Definition percentage_fields : list (string * RatioMetric) :=
  [("roe", ReturnOnEquity); ("roa", ReturnOnAssets);
   ("gross_margin", GrossMargins); ("operating_margin", OperatingMargins);
   ("profit_margin", ProfitMargins); ("payout_ratio", PayoutRatio)].

(** The metrics multiplied by the lines of the block up to and including
    the line that multiplies [m] (for [DividendYield], up to its line). *)
Definition multiplied_upto (m : RatioMetric) : list RatioMetric :=
  match m with
  | ReturnOnEquity => [ReturnOnEquity]
  | ReturnOnAssets => [ReturnOnEquity; ReturnOnAssets]
  | GrossMargins => [ReturnOnEquity; ReturnOnAssets; GrossMargins]
  | OperatingMargins => [ReturnOnEquity; ReturnOnAssets; GrossMargins; OperatingMargins]
  | ProfitMargins | DividendYield =>
      [ReturnOnEquity; ReturnOnAssets; GrossMargins; OperatingMargins; ProfitMargins]
  | PayoutRatio =>
      [ReturnOnEquity; ReturnOnAssets; GrossMargins; OperatingMargins; ProfitMargins;
       PayoutRatio]
  end.

(** None of the listed metrics is null. *)
Definition no_null (self : EquityValuation) (l : list RatioMetric) : bool :=
  forallb (fun m => negb (null_metric self m)) l.

(** The ratios written before the first product, and the multiplied
    metrics that come before a copied ratio. *)
Definition early_ratios : list string :=
  ["current_price"; "market_cap"; "shares_outstanding"].

Definition multiplied_before (ratio : string) : list RatioMetric :=
  if existsb (String.eqb ratio) early_ratios then [] else multiplied_upto ProfitMargins.

(** Capital structure as [calculate_wacc] reads it. *)
Definition market_cap_of (self : EquityValuation) : Q := default 1%Q (info self !! "marketCap").
Definition total_debt_of (self : EquityValuation) : Q := default 0%Q (info self !! "totalDebt").
Definition interest_expense_of (self : EquityValuation) : Q :=
  default 0%Q (info self !! "interestExpense").

(** The fallback beta of [calculate_beta] and a regression result. *)
Definition beta_fallback : BetaData := {| beta := py 1; alpha := py 0; r_squared := py 0 |}.
Definition beta_fitted : BetaData := {| beta := np 1; alpha := np 0; r_squared := np 0.5 |}.

(** A company with 1000 of market capitalisation, no debt, ten shares
    quoted at 50, an operating cash flow of 150 and a capital expenditure
    of -50; the cells of the frame are builtin numbers. *)
Definition acme : EquityValuation :=
  {| risk_free_rate := 0.045;
     market_return := 0.09;
     info := list_to_map [("marketCap", 1000%Q); ("sharesOutstanding", 10%Q);
                          ("currentPrice", 50%Q); ("returnOnEquity", 0.15%Q)];
     null_metric := fun _ => false;
     info_text := list_to_map [("longName", "Acme")];
     cash_flow := list_to_map [("Operating Cash Flow", [py 150]);
                               ("Capital Expenditure", [py (-50)])];
     beta_data := beta_fallback |}.

(** The same company read from a pandas frame of float64 cells. *)
Definition acme_np : EquityValuation :=
  {| risk_free_rate := 0.045;
     market_return := 0.09;
     info := info acme;
     null_metric := fun _ => false;
     info_text := info_text acme;
     cash_flow := list_to_map [("Operating Cash Flow", [np 150]);
                               ("Capital Expenditure", [np (-50)])];
     beta_data := beta_fitted |}.

(** Neither market capitalisation nor debt: the weights divide by zero. *)
Definition no_capital : EquityValuation :=
  with_info acme (list_to_map [("marketCap", 0%Q); ("sharesOutstanding", 10%Q)]).


(** Debt of 400 at an interest expense of 20 against 600 of equity. *)
Definition levered : EquityValuation :=
  with_info acme (list_to_map [("marketCap", 600%Q); ("totalDebt", 400%Q);
                               ("interestExpense", 20%Q); ("sharesOutstanding", 10%Q);
                               ("currentPrice", 50%Q)]).

(** [acme] in a market where the risk-free rate is 1% and the market
    return 2%: with a beta of 1 and no debt the WACC is 2%. *)
Definition low_rates : EquityValuation :=
  {| risk_free_rate := 0.01;
     market_return := 0.02;
     info := info acme;
     null_metric := fun _ => false;
     info_text := info_text acme;
     cash_flow := cash_flow acme;
     beta_data := beta_fallback |}.

(** Both rates at 3%: the WACC equals the default terminal growth. *)
Definition equal_rates : EquityValuation :=
  {| risk_free_rate := 0.03;
     market_return := 0.03;
     info := info acme;
     null_metric := fun _ => false;
     info_text := info_text acme;
     cash_flow := cash_flow acme;
     beta_data := beta_fallback |}.

(** No share count in the fundamentals. *)
Definition no_shares : EquityValuation :=
  with_info acme (list_to_map [("marketCap", 1000%Q); ("currentPrice", 50%Q)]).

(** A share count of zero. *)
Definition zero_shares : EquityValuation :=
  with_info acme (list_to_map [("marketCap", 1000%Q); ("sharesOutstanding", 0%Q);
                               ("currentPrice", 50%Q)]).

(** A negative quote. *)
Definition negative_price : EquityValuation :=
  with_info acme (list_to_map [("marketCap", 1000%Q); ("sharesOutstanding", 10%Q);
                               ("currentPrice", (-5)%Q)]).

(** No quote in the fundamentals, builtin cells. *)
Definition no_price : EquityValuation :=
  with_info acme (list_to_map [("marketCap", 1000%Q); ("sharesOutstanding", 10%Q)]).

(** A quote of zero, builtin cells. *)
Definition zero_price : EquityValuation :=
  with_info acme (list_to_map [("marketCap", 1000%Q); ("sharesOutstanding", 10%Q);
                               ("currentPrice", 0%Q)]).

(** No quote in the fundamentals, float64 cells. *)
Definition no_price_np : EquityValuation :=
  with_info acme_np (list_to_map [("marketCap", 1000%Q); ("sharesOutstanding", 10%Q)]).

(** The recommendation of the specification and the label the program
    writes for each. *)
Inductive Recommendation : Type := BUY | ACCUMULATE | REDUCE | SELL | NEUTRAL.

Definition label (r : Recommendation) : string :=
  match r with
  | BUY => "COMPRAR"
  | ACCUMULATE => "ACUMULAR"
  | REDUCE => "REDUZIR"
  | SELL => "VENDER"
  | NEUTRAL => "NEUTRO"
  end.

Definition xq_leb (x y : xq) : bool :=
  match x, y with
  | NaN, _ | _, NaN => false
  | Fin a, Fin b => Qle_bool a b
  | NInf, _ | _, PInf => true
  | _, _ => false
  end.

Definition num_leb (a b : num) : bool := xq_leb (val a) (val b).

(** The rule in the specification's words: BUY above 20, ACCUMULATE in
    (10, 20], SELL below -20, REDUCE in [-20, -10), NEUTRAL otherwise. *)
Definition recommendation_spec (discount : num) : Recommendation :=
  if num_gtb discount (py 20) then BUY
  else if num_gtb discount (py 10) && num_leb discount (py 20) then ACCUMULATE
  else if num_ltb discount (py (-20)) then SELL
  else if num_leb (py (-20)) discount && num_ltb discount (py (-10)) then REDUCE
  else NEUTRAL.

(** The intrinsic value per share of the default DCF, when available. *)
Definition intrinsic_value_of (self : EquityValuation) : option num :=
  d ← dcf_valuation self 0.05 0.03 5; d !! "intrinsic_value".

(** An entry of a DCF result, [None] when the result is unavailable or
    has no such key. *)
Definition entry (r : option (gmap string num)) (k : string) : option num :=
  d ← r; d !! k.

(** An entry of the summary [get_summary] returned, [None] when it
    raised or returned no such key. *)
Definition summary_entry (r : res (gmap string pyval)) (k : string) : option pyval :=
  match r with
  | Ok summary => summary !! k
  | Raise _ => None
  end.

(** The summary once discount and recommendation are written. *)
Definition with_recommendation (summary : gmap string pyval) (discount : num)
  : gmap string pyval :=
  <["recommendation_color" := VStr (recommendation discount).2]>
    (<["recommendation" := VStr (recommendation discount).1]>
    (<["discount" := VNum discount]> summary)).

(** [x] is the finite number [q]. *)
Definition exactly (x : num) (q : Q) : Prop := xq_eq (val x) (Fin q).

(** [x] is finite and no further than [tol] from [target]. *)
Definition within (tol : Q) (x : num) (target : Q) : Prop :=
  match val x with
  | Fin q => (Qabs (q - target) <= tol)%Q
  | _ => False
  end.

(** The worked example of the specification: a current FCFF of 100, a
    WACC of 0.09, growth 0.05, terminal growth 0.03 and two years, with
    the enterprise value left as a parameter; [kf] and [kw] say whether
    the FCFF and the WACC are builtin numbers or numpy scalars. *)
Definition dcf_worked_example (kf kw : kind) (ev : Q) : Prop :=
  exists fl : DcfFlows,
    dcf_flows (Num kf (Fin 100)) (Num kw (Fin 0.09)) 0.05 0.03 2 = Ok fl /\
    Forall2 exactly (fcff_projections fl) [105.0; 110.25]%Q /\
    exactly (terminal_fcff fl) 113.5575 /\
    exactly (terminal_value fl) 1892.625 /\
    within 0.01 (enterprise_value fl) ev.

(** The value the loop body [project] appends for [year]. *)
Definition projected (fcff : num) (growth_rate : Q) (year : Z) : num :=
  num_mul fcff (Num Py (xq_pow (Fin (1 + growth_rate)) year)).

(** [(1 + wacc) ** n] *)
Definition discount_factor (wacc : num) (n : Z) : num :=
  Num (kind_of (num_add (py 1) wacc)) (xq_pow (val (num_add (py 1) wacc)) n).

(** The value the loop body [discount_flow] appends for an item. *)
Definition discounted (wacc : num) (item : Z * num) : num :=
  lift2 xq_div item.2 (discount_factor wacc (item.1 + 1)).

(** A division goes through when a numpy scalar takes part or the
    divisor is not zero. *)
Definition divides (a b : num) : Prop :=
  kind_join (kind_of a) (kind_of b) = Np \/ xq_is_zero (val b) = false.

(** What lets every division of the flows go through: a numpy FCFF, or
    a WACC that is neither the terminal growth nor -1. *)
Definition flows_defined (fcff wacc : num) (terminal_growth : Q) : Prop :=
  kind_of fcff = Np \/
  (xq_is_zero (val (num_sub wacc (py terminal_growth))) = false /\
   xq_is_zero (val (num_add (py 1) wacc)) = false).

(** The CAPM cost of equity of [calculate_wacc]. *)
Definition capm (self : EquityValuation) (beta : num) : num :=
  num_add (py (risk_free_rate self))
          (num_mul beta (num_sub (py (market_return self)) (py (risk_free_rate self)))).

(** The equity value [dcf_valuation] derives from the flows. *)
Definition equity_value_of (self : EquityValuation) (fl : DcfFlows) : num :=
  num_sub (enterprise_value fl)
          (num_sub (get (info self) "totalDebt" (py 0)) (get (info self) "cash" (py 0))).

(** The WACC that [dcf_valuation] works with. *)
Definition wacc_of (self : EquityValuation) : option num :=
  calculate_wacc self (beta (calculate_beta self)) None 0.34 !! "wacc".

Definition is_py (n : num) : bool :=
  match kind_of n with
  | Py => true
  | Np => false
  end.

(** Every cell of the frame is a builtin number. *)
Definition builtin_frame (frame : gmap string (list num)) : bool :=
  forallb (fun kv : string * list num => forallb is_py kv.2) (map_to_list frame).

(** The statement cells and the beta are builtin numbers: no numpy
    scalar enters the computation. *)
Definition builtin_inputs (self : EquityValuation) : bool :=
  is_py (beta (beta_data self)) && builtin_frame (cash_flow self).

(** [acme] with an empty cash-flow statement. *)
Definition no_statement : EquityValuation :=
  {| risk_free_rate := 0.045;
     market_return := 0.09;
     info := info acme;
     null_metric := fun _ => false;
     info_text := info_text acme;
     cash_flow := ∅;
     beta_data := beta_fallback |}.

(** Every cell of the frame is a numpy scalar, as in a float64 frame. *)
Definition numpy_frame (frame : gmap string (list num)) : bool :=
  forallb (fun kv : string * list num => forallb (fun c => negb (is_py c)) kv.2)
          (map_to_list frame).

(** How bullish a label is, from VENDER (0) to COMPRAR (4). *)
Definition bullishness (l : string) : Z :=
  if String.eqb l "VENDER" then 0
  else if String.eqb l "REDUZIR" then 1
  else if String.eqb l "NEUTRO" then 2
  else if String.eqb l "ACUMULAR" then 3
  else if String.eqb l "COMPRAR" then 4
  else -1.

(** The keys [calculate_financial_ratios] writes. *)
Definition ratio_keys : list string :=
  ["current_price"; "market_cap"; "shares_outstanding";
   "roe"; "roa"; "gross_margin"; "operating_margin"; "profit_margin";
   "pe_ratio"; "forward_pe"; "pb_ratio"; "ps_ratio"; "ev_ebitda"; "ev_revenue";
   "current_ratio"; "quick_ratio"; "debt_equity"; "debt_ebitda";
   "dividend_yield"; "payout_ratio"].

(** *** comparable_companies_analysis *)

(** A row of the peer table. *)
Record PeerRow : Type := {
  peer_ticker : string;
  peer_market_cap : num;
  peer_pe_ratio : num;
  peer_ev_ebitda : num;
  peer_pb_ratio : num;
  peer_ps_ratio : num
}.

(** The dictionary appended for a peer whose fundamentals were fetched. *)
Definition peer_row (peer : string) (peer_info : gmap string Q) : PeerRow :=
  {| peer_ticker := peer;
     peer_market_cap := get peer_info "marketCap" np_nan;
     peer_pe_ratio := get peer_info "trailingPE" np_nan;
     peer_ev_ebitda := get peer_info "enterpriseToEbitda" np_nan;
     peer_pb_ratio := get peer_info "priceToBook" np_nan;
     peer_ps_ratio := get peer_info "priceToSalesTrailing12Months" np_nan |}.

(** One turn of the loop: append the row, or [continue] when fetching
    the peer raised. *)
Definition peer_step (provider : string -> res (gmap string Q))
    (peer_data : list PeerRow) (peer : string) : list PeerRow :=
  match provider peer with
  | Ok peer_info => peer_data ++ [peer_row peer peer_info]
  | Raise _ => peer_data
  end.

(** The rows of the returned frame, in order; [provider] is what
    [yf.Ticker(peer).info] gives for each ticker. *)
Definition comparable_companies_analysis (provider : string -> res (gmap string Q))
    (peers : list string) : list PeerRow :=
  foldl (peer_step provider) [] peers.

(** Fetching the peer's fundamentals succeeds. *)
Definition fetched (provider : string -> res (gmap string Q)) (peer : string) : bool :=
  match provider peer with
  | Ok _ => true
  | Raise _ => false
  end.


(** A finite number greater than zero. *)
Definition positive_num (n : num) : Prop :=
  exists q : Q, val n = Fin q /\ (0 < q)%Q.

(** The six keys of a DCF result. *)
Definition dcf_keys : list string :=
  ["intrinsic_value"; "enterprise_value"; "equity_value";
   "current_fcff"; "wacc"; "margin_of_safety"].

(** [acme] paying a dividend yield of 4%. *)
Definition payer : EquityValuation :=
  with_info acme (list_to_map [("marketCap", 1000%Q); ("dividendYield", 0.04%Q)]).

(** The fundamentals [{marketCap: 1000, returnOnEquity: None,
    grossMargins: 0.5}]. *)
Definition null_roe : EquityValuation :=
  with_nulls
    (with_info acme (list_to_map [("marketCap", 1000%Q); ("grossMargins", 0.5%Q)]))
    (fun m => match m with ReturnOnEquity => true | _ => false end).


(** The ratios copied unchanged from the fundamentals, each with its
    metric. *)
Definition raw_fields : list (string * string) :=
  [("current_price", "currentPrice"); ("market_cap", "marketCap");
   ("shares_outstanding", "sharesOutstanding");
   ("pe_ratio", "trailingPE"); ("forward_pe", "forwardPE");
   ("pb_ratio", "priceToBook"); ("ps_ratio", "priceToSalesTrailing12Months");
   ("ev_ebitda", "enterpriseToEbitda"); ("ev_revenue", "enterpriseToRevenue");
   ("current_ratio", "currentRatio"); ("quick_ratio", "quickRatio");
   ("debt_equity", "debtToEquity"); ("debt_ebitda", "debtToEbitda")].

(** ** Numbers: basic facts *)

Lemma Qis_zero_true (q : Q) : Qis_zero q = true <-> (q == 0)%Q.
Proof. apply Qeq_bool_iff. Qed.

Lemma Qis_zero_false (q : Q) : Qis_zero q = false <-> ~ (q == 0)%Q.
Proof.
  rewrite <- Qis_zero_true. destruct (Qis_zero q); split; congruence.
Qed.

Lemma Qle_bool_false (a b : Q) : Qle_bool a b = false <-> (b < a)%Q.
Proof.
  rewrite <- not_true_iff_false, Qle_bool_iff. split.
  - apply Qnot_le_lt.
  - apply Qlt_not_le.
Qed.

Lemma num_gtb_py (a b : Q) : num_gtb (py a) (py b) = true <-> (b < a)%Q.
Proof.
  unfold num_gtb; simpl. rewrite negb_true_iff. apply Qle_bool_false.
Qed.

Lemma num_gtb_py_false (a b : Q) : num_gtb (py a) (py b) = false <-> (a <= b)%Q.
Proof.
  unfold num_gtb; simpl. rewrite negb_false_iff. apply Qle_bool_iff.
Qed.

Lemma num_div_py (a b : Q) :
  num_div (py a) (py b) =
  if Qis_zero b then Raise ZeroDivisionError else Ok (py (a / b)).
Proof.
  unfold num_div, lift2, py; simpl. destruct (Qis_zero b); reflexivity.
Qed.

Lemma num_div_py_ok (a b : Q) : ~ (b == 0)%Q -> num_div (py a) (py b) = Ok (py (a / b)).
Proof.
  intros H. rewrite num_div_py. apply Qis_zero_false in H. rewrite H. reflexivity.
Qed.

Lemma get_py (m : gmap string Q) (k : string) (d : Q) :
  get m k (py d) = py (default d (m !! k)).
Proof. unfold get. destruct (m !! k); reflexivity. Qed.

Lemma xq_pow_fin (q : Q) (n : Z) : 0 <= n -> xq_pow (Fin q) n = Fin (q ^ n).
Proof. destruct n; intros H; try reflexivity. lia. Qed.

Lemma xq_pow_nonzero (x : xq) (n : Z) :
  0 <= n -> xq_is_zero x = false -> xq_is_zero (xq_pow x n) = false.
Proof.
  intros Hn Hx. destruct n as [|p|p]; [reflexivity| |lia].
  destruct x as [q| | |]; simpl in *; try reflexivity.
  - apply Qis_zero_false. apply Qpower_not_0_positive.
    apply Qis_zero_false. exact Hx.
  - destruct p; reflexivity.
Qed.

Lemma num_pow_ok (a : num) (n : Z) :
  0 <= n -> num_pow a n = Ok (Num (kind_of a) (xq_pow (val a) n)).
Proof.
  intros Hn. unfold num_pow.
  assert (E : (n <? 0) = false) by lia.
  rewrite E, andb_false_r. destruct (kind_of a); reflexivity.
Qed.

Lemma num_div_inv (a b c : num) : num_div a b = Ok c -> c = lift2 xq_div a b.
Proof.
  unfold num_div.
  destruct (kind_of a), (kind_of b), (xq_is_zero (val b)); congruence.
Qed.

Lemma num_div_np (a b : num) :
  kind_join (kind_of a) (kind_of b) = Np -> num_div a b = Ok (lift2 xq_div a b).
Proof.
  unfold num_div. destruct (kind_of a), (kind_of b); simpl; congruence.
Qed.

Lemma num_div_nonzero (a b : num) :
  xq_is_zero (val b) = false -> num_div a b = Ok (lift2 xq_div a b).
Proof.
  unfold num_div. intros ->. destruct (kind_of a), (kind_of b); reflexivity.
Qed.

Lemma num_div_py_zero (a b : num) :
  kind_of a = Py -> kind_of b = Py -> xq_is_zero (val b) = true ->
  num_div a b = Raise ZeroDivisionError.
Proof. unfold num_div. intros -> -> ->. reflexivity. Qed.

Lemma num_div_divides (a b : num) : divides a b -> num_div a b = Ok (lift2 xq_div a b).
Proof. intros [H|H]; [apply num_div_np | apply num_div_nonzero]; exact H. Qed.

Lemma kind_join_py_r (k : kind) : kind_join k Py = k.
Proof. destruct k; reflexivity. Qed.

Lemma kind_join_np_r (k : kind) : kind_join k Np = Np.
Proof. destruct k; reflexivity. Qed.

Lemma kind_join_idem (k : kind) : kind_join k k = k.
Proof. destruct k; reflexivity. Qed.

Lemma kind_join_assoc (a b c : kind) :
  kind_join (kind_join a b) c = kind_join a (kind_join b c).
Proof. destruct a, b, c; reflexivity. Qed.

(** ** Loops: basic facts *)

Lemma for_append_ok {A B : Type} (f : A -> res B) (g : A -> B) (l : list A) :
  (forall a, a ∈ l -> f a = Ok (g a)) -> for_append f l = Ok (g <$> l).
Proof.
  induction l as [|a l IH]; intros H; [reflexivity|].
  simpl. rewrite (H a) by left. simpl.
  rewrite IH; [reflexivity|]. intros b Hb. apply H. right. exact Hb.
Qed.

Lemma for_append_inv {A B : Type} (f : A -> res B) (l : list A) (bs : list B) :
  for_append f l = Ok bs -> Forall2 (fun a b => f a = Ok b) l bs.
Proof.
  revert bs. induction l as [|a l IH]; intros bs H; simpl in H.
  - injection H as <-. constructor.
  - destruct (f a) as [b|e] eqn:Ea; [simpl in H|discriminate H].
    destruct (for_append f l) as [bs'|e] eqn:El; [simpl in H|discriminate H].
    injection H as <-. constructor; [exact Ea|]. apply IH. reflexivity.
Qed.

Lemma for_append_Forall {A B : Type} (f : A -> res B) (P : B -> Prop)
    (l : list A) (bs : list B) :
  for_append f l = Ok bs ->
  (forall a b, a ∈ l -> f a = Ok b -> P b) ->
  Forall P bs.
Proof.
  intros H HP. apply for_append_inv in H.
  induction H as [|a b l bs Hab _ IH]; constructor.
  - apply (HP a b); [left|exact Hab].
  - apply IH. intros a' b' Ha'. apply HP. right. exact Ha'.
Qed.

(** Case analysis on the first step of a sequence that returned. *)
Ltac bind_inv H :=
  match type of H with
  | mbind _ ?m = Ok _ =>
      let E := fresh "E" in
      destruct m eqn:E; [cbn [mbind res_bind] in H | discriminate H]
  end.

Lemma num_pow_kind (a d : num) (n : Z) : num_pow a n = Ok d -> kind_of d = kind_of a.
Proof.
  unfold num_pow. destruct (kind_of a) eqn:K.
  - destruct (xq_is_zero (val a) && (n <? 0)); [discriminate|].
    intros H. injection H as <-. reflexivity.
  - intros H. injection H as <-. reflexivity.
Qed.

Lemma num_div_kind (a b c : num) :
  num_div a b = Ok c -> kind_of c = kind_join (kind_of a) (kind_of b).
Proof. intros H. apply num_div_inv in H. subst c. reflexivity. Qed.

Lemma foldl_add_kind (k : kind) (l : list num) (a : num) :
  Forall (fun x => kind_of x = k) l ->
  kind_of (foldl num_add a l) =
  match l with [] => kind_of a | _ => kind_join (kind_of a) k end.
Proof.
  revert a. induction l as [|x l IH]; intros a Hl; [reflexivity|].
  inversion Hl as [|? ? Hx Hl']; subst. simpl foldl. rewrite (IH _ Hl').
  destruct l; simpl; [reflexivity|].
  rewrite kind_join_assoc, kind_join_idem. reflexivity.
Qed.

Lemma py_sum_kind (k : kind) (l : list num) :
  Forall (fun x => kind_of x = k) l ->
  kind_of (py_sum l) = match l with [] => Py | _ => k end.
Proof.
  intros Hl. unfold py_sum. rewrite (foldl_add_kind k l _ Hl).
  destruct l, k; reflexivity.
Qed.

(** ** calculate_financial_ratios *)

(** A line of the block leaves the other keys as they were. *)
Lemma lookup_set_item_ne (k k' : string) (v : res num) (st : filling) :
  k' ≠ k -> written (set_item k' v st) !! k = written st !! k.
Proof.
  intros Hk. destruct st as [ratios|ratios e], v as [x|e']; simpl; try reflexivity.
  apply lookup_insert_ne. exact Hk.
Qed.

(** A line writes its key when the block is still running and its
    right-hand side does not raise. *)
Lemma lookup_set_item_eq (k : string) (v : res num) (st : filling) :
  written (set_item k v st) !! k =
  if running st
  then match v with Ok x => Some x | Raise _ => written st !! k end
  else written st !! k.
Proof.
  destruct st as [ratios|ratios e], v as [x|e']; simpl; try reflexivity.
  apply lookup_insert_eq.
Qed.

Lemma running_set_item (k : string) (v : res num) (st : filling) :
  running (set_item k v st) = running st && returned v.
Proof. destruct st, v; reflexivity. Qed.

(** A product raises exactly on a null. *)
Lemma returned_pct (self : EquityValuation) (m : RatioMetric) :
  returned (pct self m) = negb (null_metric self m).
Proof.
  unfold pct, info_entry. destruct (null_metric self m); [reflexivity|].
  destruct (info self !! metric_key m); reflexivity.
Qed.

(** The guarded line of the dividend yield never raises. *)
Lemma returned_dividend_yield (self : EquityValuation) :
  returned (dividend_yield self) = true.
Proof.
  unfold dividend_yield. destruct (info_entry self DividendYield) as [[|d]|]; try reflexivity.
  destruct (num_truthy (py d)); reflexivity.
Qed.

(** Solves [calculate_financial_ratios self !! k = None] for a key that
    no line writes. *)
Ltac absent_ratio :=
  unfold calculate_financial_ratios; cbv zeta;
  repeat (rewrite lookup_set_item_ne by done);
  apply lookup_empty.

(** Reduces the lookup of a written key to the line that writes it and
    the condition that the lines before it did not raise. *)
Ltac ratio_line :=
  unfold calculate_financial_ratios; cbv zeta;
  repeat (rewrite lookup_set_item_ne by done);
  rewrite lookup_set_item_eq;
  repeat (rewrite lookup_set_item_ne by done);
  rewrite ?running_set_item, ?returned_pct, ?returned_dividend_yield;
  cbn [written running returned andb]; rewrite ?lookup_empty.

(** Case analysis on the nulls a goal mentions. *)
Ltac null_cases self :=
  repeat match goal with
         | |- context [null_metric self ?m] => destruct (null_metric self m)
         end.

(** Only the keys of [ratio_keys] are ever written. *)
Lemma ratios_keys (self : EquityValuation) (k : string) (v : num) :
  calculate_financial_ratios self !! k = Some v -> k ∈ ratio_keys.
Proof.
  intros Hk. destruct (decide (k ∈ ratio_keys)) as [Hin|Hout]; [exact Hin|exfalso].
  unfold ratio_keys in Hout. rewrite !not_elem_of_cons in Hout.
  repeat match goal with H : _ /\ _ |- _ => destruct H end.
  unfold calculate_financial_ratios in Hk. cbv zeta in Hk.
  repeat (rewrite lookup_set_item_ne in Hk by congruence).
  cbn [written] in Hk. rewrite lookup_empty in Hk. discriminate Hk.
Qed.




(** ** calculate_wacc *)

Section Wacc.
Variable self : EquityValuation.

Let mc := market_cap_of self.
Let td := total_debt_of self.
Let ie := interest_expense_of self.

(** The estimate never raises: the divisor is tested positive first. *)
Lemma estimate_cost_of_debt_cases :
  estimate_cost_of_debt self =
  Ok (py match info self !! "totalDebt" with
         | Some d => if Qle_bool d 0 then 0.06 else ie / d
         | None => ie / 1
         end)%Q.
Proof.
  unfold estimate_cost_of_debt. rewrite !get_py.
  fold (interest_expense_of self). fold ie.
  destruct (info self !! "totalDebt") as [d|]; simpl default.
  - destruct (Qle_bool d 0) eqn:E.
    + apply Qle_bool_iff, num_gtb_py_false in E. rewrite E. reflexivity.
    + apply Qle_bool_false in E.
      assert (H : num_gtb (py d) (py 0) = true) by (apply num_gtb_py; exact E).
      rewrite H. apply num_div_py_ok. intros Hz. rewrite Hz in E.
      exact (Qlt_irrefl 0 E).
  - reflexivity.
Qed.

Lemma cost_of_debt_step (cost_of_debt : option Q) :
  exists c : Q,
    match cost_of_debt with
    | None => estimate_cost_of_debt self
    | Some c => Ok (py c)
    end = Ok (py c).
Proof.
  destruct cost_of_debt as [c|].
  - exists c. reflexivity.
  - eexists. apply estimate_cost_of_debt_cases.
Qed.

(** The body raises exactly when market capitalisation and debt cancel. *)
Lemma wacc_body_raises (beta : num) (cost_of_debt : option Q) (tax_rate : Q) :
  (mc + td == 0)%Q ->
  wacc_body self beta cost_of_debt tax_rate = Raise ZeroDivisionError.
Proof.
  intros Hz. unfold wacc_body.
  destruct (cost_of_debt_step cost_of_debt) as [c ->].
  rewrite !get_py. fold (market_cap_of self) (total_debt_of self). fold mc td.
  apply Qis_zero_true in Hz.
  change (num_add (py mc) (py td)) with (py (mc + td)%Q).
  rewrite !num_div_py, Hz. reflexivity.
Qed.

Lemma wacc_body_returns (beta : num) (cost_of_debt : option Q) (tax_rate : Q) :
  ~ (mc + td == 0)%Q ->
  exists c d,
    match cost_of_debt with
    | None => estimate_cost_of_debt self
    | Some c => Ok (py c)
    end = Ok (py c) /\
    wacc_body self beta cost_of_debt tax_rate = Ok d /\
    d !! "cost_of_debt" = Some (py c) /\
    d !! "equity_weight" = Some (py (mc / (mc + td))) /\
    d !! "debt_weight" = Some (py (td / (mc + td))) /\
    d !! "wacc" =
      Some (num_add (num_mul (py (mc / (mc + td))) (capm self beta))
                    (num_mul (num_mul (py (td / (mc + td))) (py c))
                             (num_sub (py 1) (py tax_rate)))).
Proof.
  intros Hnz. unfold wacc_body.
  destruct (cost_of_debt_step cost_of_debt) as [c Hc]. rewrite Hc.
  rewrite !get_py. fold (market_cap_of self) (total_debt_of self). fold mc td.
  apply Qis_zero_false in Hnz.
  change (num_add (py mc) (py td)) with (py (mc + td)%Q).
  rewrite !num_div_py, Hnz. cbn [mbind res_bind].
  eexists c, _. split; [reflexivity|]. split; [reflexivity|].
  repeat split;
    repeat (rewrite lookup_insert_ne by done); rewrite lookup_insert_eq;
    reflexivity.
Qed.

(** Both outcomes of the body leave a [wacc] entry, and with a
    builtin beta it is a builtin number. *)
Lemma wacc_entry (beta : num) (cost_of_debt : option Q) (tax_rate : Q) :
  exists w : num,
    calculate_wacc self beta cost_of_debt tax_rate !! "wacc" = Some w /\
    (kind_of beta = Py -> kind_of w = Py).
Proof.
  unfold calculate_wacc.
  destruct (Qis_zero (mc + td)) eqn:E.
  - apply Qis_zero_true in E.
    rewrite (wacc_body_raises beta cost_of_debt tax_rate E).
    exists (py 0.09). split; reflexivity.
  - apply Qis_zero_false in E.
    destruct (wacc_body_returns beta cost_of_debt tax_rate E)
      as (c & d & _ & -> & _ & _ & _ & Hw).
    eexists. split; [exact Hw|].
    intros Hb. unfold capm, num_add, num_mul, num_sub, lift2. simpl.
    rewrite Hb. reflexivity.
Qed.

End Wacc.

(** C10. Whenever an exception occurs inside calculate_wacc, the result
    is the fallback: wacc 0.09, cost_of_equity 0.10, cost_of_debt 0.06,
    these three keys and no others, so neither weight is present. *)
Theorem wacc_fallback_on_exception
    (self : EquityValuation) (beta : num) (cost_of_debt : option Q) (tax_rate : Q) (e : exn) :
  wacc_body self beta cost_of_debt tax_rate = Raise e ->
  let r := calculate_wacc self beta cost_of_debt tax_rate in
  r !! "wacc" = Some (py 0.09) /\
  r !! "cost_of_equity" = Some (py 0.10) /\
  r !! "cost_of_debt" = Some (py 0.06) /\
  r !! "equity_weight" = None /\
  r !! "debt_weight" = None /\
  dom r = list_to_set ["wacc"; "cost_of_equity"; "cost_of_debt"].
Proof.
  intros H r. subst r. unfold calculate_wacc. rewrite H.
  unfold wacc_fallback. repeat split.
Qed.

Lemma wacc_fallback_on_exception_witness :
  wacc_body no_capital (py 1) None 0.34 = Raise ZeroDivisionError /\
  calculate_wacc no_capital (py 1) None 0.34 !! "wacc" = Some (py 0.09) /\
  calculate_wacc no_capital (py 1) None 0.34 !! "equity_weight" = None.
Proof.
  assert (H : wacc_body no_capital (py 1) None 0.34 = Raise ZeroDivisionError)
    by (vm_compute; reflexivity).
  split; [exact H|].
  pose proof (wacc_fallback_on_exception no_capital (py 1) None 0.34 _ H) as W.
  simpl in W. destruct W as (W1 & _ & _ & W4 & _). split; assumption.
Defined.






(** ** dcf_valuation *)

Section Flows.
Variables (fcff wacc : num) (growth_rate terminal_growth : Q) (years : Z).

Lemma project_ok (year : Z) :
  0 <= year -> project fcff growth_rate year = Ok (projected fcff growth_rate year).
Proof.
  intros Hy. unfold project.
  change (num_add (py 1) (py growth_rate)) with (py (1 + growth_rate)).
  rewrite (num_pow_ok _ _ Hy). reflexivity.
Qed.

Lemma projected_kind (year : Z) :
  kind_of (projected fcff growth_rate year) = kind_of fcff.
Proof. apply kind_join_py_r. Qed.

Lemma projections_ok :
  for_append (project fcff growth_rate) (range_1 years) =
  Ok (projected fcff growth_rate <$> range_1 years).
Proof.
  apply for_append_ok. intros y Hy. apply project_ok.
  apply elem_of_seqZ in Hy. lia.
Qed.

Lemma last_projection :
  1 <= years ->
  last_item (projected fcff growth_rate <$> range_1 years) =
  Ok (projected fcff growth_rate years).
Proof.
  intros Hy. unfold last_item, range_1. rewrite fmap_last.
  replace years with (Z.of_nat (S (Z.to_nat (years - 1)))) at 1 by lia.
  rewrite seqZ_S, last_snoc. simpl. do 2 f_equal. lia.
Qed.

Lemma discount_factor_ok (n : Z) :
  0 <= n -> num_pow (num_add (py 1) wacc) n = Ok (discount_factor wacc n).
Proof. apply num_pow_ok. Qed.

Lemma discount_factor_kind (n : Z) : kind_of (discount_factor wacc n) = kind_of wacc.
Proof. unfold discount_factor. simpl. destruct (kind_of wacc); reflexivity. Qed.

Lemma discount_factor_nonzero (n : Z) :
  0 <= n -> xq_is_zero (val (num_add (py 1) wacc)) = false ->
  xq_is_zero (val (discount_factor wacc n)) = false.
Proof. intros Hn Hz. apply xq_pow_nonzero; assumption. Qed.

Lemma enumerate_elem {A : Type} (l : list A) (i : Z) (a : A) :
  (i, a) ∈ enumerate l -> 0 <= i /\ a ∈ l.
Proof.
  unfold enumerate. intros H. apply elem_of_lookup_imap in H.
  destruct H as (n & x & Heq & Hl). injection Heq as -> ->.
  split; [lia|]. apply list_elem_of_lookup. exists n. exact Hl.
Qed.

Lemma dcf_flows_returns :
  1 <= years -> flows_defined fcff wacc terminal_growth ->
  let projections := projected fcff growth_rate <$> range_1 years in
  let tf := num_mul (projected fcff growth_rate years)
                    (num_add (py 1) (py terminal_growth)) in
  let tv := lift2 xq_div tf (num_sub wacc (py terminal_growth)) in
  let pvs := discounted wacc <$> enumerate projections in
  let pvt := lift2 xq_div tv (discount_factor wacc years) in
  dcf_flows fcff wacc growth_rate terminal_growth years =
  Ok {| fcff_projections := projections;
        terminal_fcff := tf;
        terminal_value := tv;
        present_values := pvs;
        pv_terminal := pvt;
        enterprise_value := num_add (py_sum pvs) pvt |}.
Proof.
  intros Hy Hdef projections tf tv pvs pvt. unfold dcf_flows.
  rewrite projections_ok. cbn [mbind res_bind].
  rewrite (last_projection Hy). cbn [mbind res_bind].
  fold projections. fold tf.
  assert (Htv : num_div tf (num_sub wacc (py terminal_growth)) = Ok tv).
  { apply num_div_divides. destruct Hdef as [Hnp|[Hz _]]; [left|right; exact Hz].
    unfold tf, num_mul, num_sub, lift2; simpl. rewrite Hnp. reflexivity. }
  rewrite Htv. cbn [mbind res_bind].
  assert (Hpvs : for_append (discount_flow wacc) (enumerate projections) = Ok pvs).
  { apply for_append_ok. intros [i p] Hip. apply enumerate_elem in Hip.
    destruct Hip as [Hi Hp]. unfold discount_flow. cbn [fst snd].
    rewrite discount_factor_ok by lia. cbn [mbind res_bind].
    apply num_div_divides. destruct Hdef as [Hnp|[_ Hz]].
    - left. apply list_elem_of_fmap in Hp. destruct Hp as (y & -> & _).
      rewrite projected_kind, Hnp. reflexivity.
    - right. apply discount_factor_nonzero; [lia|exact Hz]. }
  rewrite Hpvs. cbn [mbind res_bind].
  rewrite discount_factor_ok by lia. cbn [mbind res_bind].
  assert (Hpvt : num_div tv (discount_factor wacc years) = Ok pvt).
  { apply num_div_divides. destruct Hdef as [Hnp|[_ Hz]].
    - left. unfold tv, tf, num_mul, num_sub, lift2; simpl. rewrite Hnp. reflexivity.
    - right. apply discount_factor_nonzero; [lia|exact Hz]. }
  rewrite Hpvt. reflexivity.
Qed.

Lemma project_inv (year : Z) (p : num) :
  project fcff growth_rate year = Ok p -> kind_of p = kind_of fcff.
Proof.
  unfold project. intros H. bind_inv H. injection H as <-.
  apply num_pow_kind in E. simpl. rewrite E. apply kind_join_py_r.
Qed.

Lemma discount_flow_inv (item : Z * num) (c : num) :
  discount_flow wacc item = Ok c ->
  kind_of c = kind_join (kind_of item.2) (kind_of wacc).
Proof.
  unfold discount_flow. intros H. bind_inv H.
  apply num_pow_kind in E. apply num_div_kind in H. rewrite H, E.
  simpl. destruct (kind_of wacc); reflexivity.
Qed.

(** Whenever the flows are returned, their kinds are those of the
    inputs and the terminal value is the quotient the code writes. *)
Lemma dcf_flows_inv (fl : DcfFlows) :
  dcf_flows fcff wacc growth_rate terminal_growth years = Ok fl ->
  kind_of (terminal_fcff fl) = kind_of fcff /\
  kind_of (enterprise_value fl) = kind_join (kind_of fcff) (kind_of wacc) /\
  num_div (terminal_fcff fl) (num_sub wacc (py terminal_growth)) =
    Ok (terminal_value fl).
Proof.
  unfold dcf_flows. intros H.
  bind_inv H. rename a into projections, E into Eproj.
  bind_inv H. rename a into fcff_last, E into Elast.
  bind_inv H. rename a into tv, E into Etv.
  bind_inv H. rename a into pvs, E into Epvs.
  bind_inv H. rename a into d, E into Ed.
  bind_inv H. rename a into pvt, E into Epvt.
  injection H as <-. simpl.
  assert (Hprojs : Forall (fun x => kind_of x = kind_of fcff) projections).
  { apply (for_append_Forall _ _ _ _ Eproj). intros y p _. apply project_inv. }
  assert (Hlast : kind_of fcff_last = kind_of fcff).
  { unfold last_item in Elast. destruct (last projections) as [x|] eqn:El;
      [|discriminate Elast]. injection Elast as ->.
    apply last_Some_elem_of in El. rewrite Forall_forall in Hprojs.
    apply Hprojs. exact El. }
  assert (Htf : kind_join (kind_of fcff_last) Py = kind_of fcff)
    by (rewrite kind_join_py_r; exact Hlast).
  split; [exact Htf|]. split; [|exact Etv].
  assert (Hpvs : Forall (fun x => kind_of x = kind_join (kind_of fcff) (kind_of wacc)) pvs).
  { apply (for_append_Forall _ _ _ _ Epvs). intros [i p] c Hip Hc.
    apply discount_flow_inv in Hc. simpl in Hc. rewrite Hc.
    apply enumerate_elem in Hip. destruct Hip as [_ Hp].
    rewrite Forall_forall in Hprojs. rewrite (Hprojs p Hp). reflexivity. }
  rewrite (py_sum_kind _ _ Hpvs).
  apply num_div_kind in Epvt, Etv. apply num_pow_kind in Ed.
  rewrite Epvt, Etv, Ed. simpl. rewrite Htf.
  destruct pvs, (kind_of fcff), (kind_of wacc); reflexivity.
Qed.

End Flows.

Lemma builtin_frame_loc (frame : gmap string (list num)) (row : string) (c : num) :
  builtin_frame frame = true -> loc_iloc0 frame row = Ok c -> kind_of c = Py.
Proof.
  unfold builtin_frame, loc_iloc0, getitem. intros Hb H.
  destruct (frame !! row) as [cells|] eqn:Hrow; [simpl in H|discriminate H].
  destruct cells as [|c' cells]; [discriminate H|]. injection H as ->.
  rewrite forallb_forall in Hb.
  assert (Hin : In (row, c :: cells) (map_to_list frame)).
  { apply list_elem_of_In, elem_of_map_to_list. exact Hrow. }
  apply Hb in Hin. simpl in Hin. apply andb_true_iff in Hin. destruct Hin as [Hc _].
  unfold is_py in Hc. destruct (kind_of c); [reflexivity|discriminate Hc].
Qed.

Section Dcf.
Variable self : EquityValuation.
Variables (growth_rate terminal_growth : Q) (years : Z).

Let shares := get (info self) "sharesOutstanding" (py 1).
Let current_price := get (info self) "currentPrice" (py 0).

(** The steps a returned result went through, and its entries. *)
Lemma dcf_body_inv (d : gmap string num) :
  dcf_body self growth_rate terminal_growth years = Ok d ->
  exists (ocf capex w : num) (fl : DcfFlows) (iv m : num),
    loc_iloc0 (cash_flow self) "Operating Cash Flow" = Ok ocf /\
    loc_iloc0 (cash_flow self) "Capital Expenditure" = Ok capex /\
    wacc_of self = Some w /\
    dcf_flows (num_add ocf capex) w growth_rate terminal_growth years = Ok fl /\
    num_div (equity_value_of self fl) shares = Ok iv /\
    num_div (num_sub iv current_price) iv = Ok m /\
    d !! "intrinsic_value" = Some iv /\
    d !! "enterprise_value" = Some (enterprise_value fl) /\
    d !! "equity_value" = Some (equity_value_of self fl) /\
    d !! "wacc" = Some w /\
    dom d = list_to_set ["intrinsic_value"; "enterprise_value"; "equity_value";
                         "current_fcff"; "wacc"; "margin_of_safety"].
Proof.
  unfold dcf_body. intros H.
  bind_inv H. rename a into ocf, E into Eocf.
  bind_inv H. rename a into capex, E into Ecapex.
  bind_inv H. rename a into w, E into Ew.
  bind_inv H. rename a into fl, E into Efl.
  bind_inv H. rename a into iv, E into Eiv.
  bind_inv H. rename a into m, E into Em.
  injection H as <-.
  exists ocf, capex, w, fl, iv, m.
  split; [reflexivity|]. split; [reflexivity|].
  split; [unfold wacc_of; unfold getitem in Ew;
          destruct (calculate_wacc _ _ _ _ !! "wacc"); [congruence|discriminate]|].
  split; [exact Efl|]. split; [exact Eiv|]. split; [exact Em|].
  repeat split.
Qed.

(** The steps that suffice for a result. *)
Lemma dcf_body_returns (ocf capex w : num) (fl : DcfFlows) (iv m : num) :
  loc_iloc0 (cash_flow self) "Operating Cash Flow" = Ok ocf ->
  loc_iloc0 (cash_flow self) "Capital Expenditure" = Ok capex ->
  wacc_of self = Some w ->
  dcf_flows (num_add ocf capex) w growth_rate terminal_growth years = Ok fl ->
  num_div (equity_value_of self fl) shares = Ok iv ->
  num_div (num_sub iv current_price) iv = Ok m ->
  exists d : gmap string num,
    dcf_valuation self growth_rate terminal_growth years = Some d /\
    d !! "intrinsic_value" = Some iv /\
    d !! "enterprise_value" = Some (enterprise_value fl) /\
    d !! "equity_value" = Some (equity_value_of self fl) /\
    d !! "wacc" = Some w.
Proof.
  intros Eocf Ecapex Ew Efl Eiv Em.
  unfold dcf_valuation, dcf_body.
  rewrite Eocf, Ecapex. cbn [mbind res_bind].
  unfold wacc_of in Ew. unfold getitem. rewrite Ew. cbn [mbind res_bind].
  rewrite Efl. cbn [mbind res_bind].
  unfold equity_value_of in Eiv. fold shares. rewrite Eiv. cbn [mbind res_bind].
  fold current_price. rewrite Em. cbn [mbind res_bind].
  eexists. split; [reflexivity|]. repeat split.
Qed.

End Dcf.

Lemma entry_Some (r : option (gmap string num)) (k : string) (v : num) :
  entry r k = Some v -> exists d, r = Some d /\ d !! k = Some v.
Proof.
  unfold entry. destruct r as [d|]; [|discriminate].
  intros H. exists d. split; [reflexivity|exact H].
Qed.

Lemma summary_entry_Some (r : res (gmap string pyval)) (k : string) (v : pyval) :
  summary_entry r k = Some v -> exists summary, r = Ok summary /\ summary !! k = Some v.
Proof.
  unfold summary_entry. destruct r as [summary|e]; [|discriminate].
  intros H. exists summary. split; [reflexivity|exact H].
Qed.

(** C1, with the enterprise value the arithmetic gives. For a current
    FCFF of 100, growth 0.05, two years, terminal growth 0.03 and a WACC
    of 0.09, the projected flows are 105 and 110.25, the terminal FCFF is
    113.5575, the terminal value is 1892.625 and the enterprise value is
    1782.11 within 0.01. *)
Theorem dcf_worked_example_value (kf kw : kind) : dcf_worked_example kf kw 1782.11.
Proof.
  destruct kf, kw; eexists; (split; [vm_compute; reflexivity|]);
    (split; [repeat constructor; vm_compute; reflexivity|]);
    (split; [vm_compute; reflexivity|]);
    (split; [vm_compute; reflexivity|]);
    vm_compute; discriminate.
Qed.

(** C1 as stated fails: the enterprise value of the worked example is
    further than 0.01 from 1781.97. *)
Lemma dcf_worked_example_counterexample :
  ~ dcf_worked_example Py Py 1781.97 /\ ~ dcf_worked_example Np Np 1781.97.
Proof.
  split; intros (fl & Hfl & _ & _ & _ & Hev);
    vm_compute in Hfl; injection Hfl as <-;
    vm_compute in Hev; apply Hev; reflexivity.
Qed.

Lemma builtin_inputs_kinds (self : EquityValuation) (row : string) (c : num) :
  builtin_inputs self = true ->
  kind_of (beta (beta_data self)) = Py /\
  (loc_iloc0 (cash_flow self) row = Ok c -> kind_of c = Py).
Proof.
  unfold builtin_inputs. intros H. apply andb_true_iff in H. destruct H as [Hb Hf].
  split.
  - unfold is_py in Hb. destruct (kind_of (beta (beta_data self)));
      [reflexivity|discriminate Hb].
  - apply builtin_frame_loc. exact Hf.
Qed.

Lemma wacc_of_builtin (self : EquityValuation) (w : num) :
  builtin_inputs self = true -> wacc_of self = Some w -> kind_of w = Py.
Proof.
  intros Hb Hw. unfold wacc_of in Hw.
  destruct (wacc_entry self (beta (calculate_beta self)) None 0.34) as (w' & Hw' & Hk).
  rewrite Hw' in Hw. injection Hw as <-. apply Hk.
  apply (builtin_inputs_kinds self "" (py 0) Hb).
Qed.

(** With builtin inputs every value the DCF divides is builtin. *)
Lemma dcf_builtin_kinds (self : EquityValuation) (g tg : Q) (years : Z)
    (ocf capex w : num) (fl : DcfFlows) :
  builtin_inputs self = true ->
  loc_iloc0 (cash_flow self) "Operating Cash Flow" = Ok ocf ->
  loc_iloc0 (cash_flow self) "Capital Expenditure" = Ok capex ->
  wacc_of self = Some w ->
  dcf_flows (num_add ocf capex) w g tg years = Ok fl ->
  kind_of w = Py /\
  kind_of (terminal_fcff fl) = Py /\
  kind_of (equity_value_of self fl) = Py.
Proof.
  intros Hb Hocf Hcapex Hw Hfl.
  pose proof (wacc_of_builtin self w Hb Hw) as Kw.
  apply (builtin_inputs_kinds self _ _ Hb) in Hocf, Hcapex.
  apply dcf_flows_inv in Hfl. destruct Hfl as (Ktf & Kev & _).
  assert (Kf : kind_of (num_add ocf capex) = Py)
    by (simpl; rewrite Hocf, Hcapex; reflexivity).
  rewrite Kf in Ktf, Kev. rewrite Kw in Kev.
  split; [exact Kw|]. split; [exact Ktf|].
  unfold equity_value_of. rewrite !get_py. simpl. rewrite Kev. reflexivity.
Qed.

(** With float64 cells no division raises: a result is returned for
    every WACC, terminal growth, share count and price. *)
Lemma dcf_returns_on_numpy_cells (self : EquityValuation) (g tg : Q) (years : Z)
    (ocf capex : num) :
  loc_iloc0 (cash_flow self) "Operating Cash Flow" = Ok ocf ->
  loc_iloc0 (cash_flow self) "Capital Expenditure" = Ok capex ->
  kind_join (kind_of ocf) (kind_of capex) = Np ->
  1 <= years ->
  exists (d : gmap string num) (iv : num),
    dcf_valuation self g tg years = Some d /\
    d !! "intrinsic_value" = Some iv /\ kind_of iv = Np.
Proof.
  intros Hocf Hcapex Hk Hy.
  destruct (wacc_entry self (beta (calculate_beta self)) None 0.34) as (w & Hw & _).
  assert (Hdef : flows_defined (num_add ocf capex) w tg) by (left; exact Hk).
  pose proof (dcf_flows_returns (num_add ocf capex) w g tg years Hy Hdef) as Hfl.
  cbv zeta in Hfl.
  match type of Hfl with _ = Ok ?r => set (fl := r) in * end.
  pose proof (dcf_flows_inv _ _ _ _ _ _ Hfl) as (_ & Kev & _).
  change (kind_of (num_add ocf capex)) with (kind_join (kind_of ocf) (kind_of capex)) in Kev.
  rewrite Hk in Kev. change (kind_join Np (kind_of w)) with Np in Kev.
  assert (Keq : kind_of (equity_value_of self fl) = Np).
  { unfold equity_value_of. rewrite !get_py.
    change (kind_of (num_sub ?a ?b)) with (kind_join (kind_of a) (kind_of b)).
    rewrite Kev. reflexivity. }
  set (shares := get (info self) "sharesOutstanding" (py 1)).
  set (iv := lift2 xq_div (equity_value_of self fl) shares).
  assert (Hiv : num_div (equity_value_of self fl) shares = Ok iv).
  { apply num_div_np. rewrite Keq. reflexivity. }
  assert (Kiv : kind_of iv = Np).
  { change (kind_of iv)
      with (kind_join (kind_of (equity_value_of self fl)) (kind_of shares)).
    rewrite Keq. reflexivity. }
  set (cp := get (info self) "currentPrice" (py 0)).
  assert (Hm : num_div (num_sub iv cp) iv = Ok (lift2 xq_div (num_sub iv cp) iv)).
  { apply num_div_np. rewrite Kiv. apply kind_join_np_r. }
  destruct (dcf_body_returns self g tg years ocf capex w fl iv _ Hocf Hcapex Hw Hfl Hiv Hm)
    as (d & Hd & Hdiv & _).
  exists d, iv. repeat split; assumption.
Qed.

Lemma Qdiv_pos_neg (a b : Q) : (0 < a -> b < 0 -> a / b < 0)%Q.
Proof.
  intros Ha Hb.
  assert (Hnb : (0 < - b)%Q) by lra.
  assert (Hq : (0 < a / - b)%Q).
  { apply Qlt_shift_div_l; [exact Hnb|]. lra. }
  assert (He : (a / b == - (a / - b))%Q) by (field; lra).
  rewrite He. lra.
Qed.

(** C2, as the code has it. dcf_valuation does not compare the WACC
    with the terminal growth. When they are equal and every operand is a
    builtin number the division of the terminal value raises and the
    DCF result is unavailable; when the WACC is below the terminal
    growth (and is not -1) the flows are computed, the terminal value
    being the finite number terminal_fcff / (wacc - terminal_growth),
    negative for a positive terminal FCFF. *)
Theorem terminal_growth_unguarded (g tg : Q) (years : Z) :
  (forall (self : EquityValuation) (w : num) (q : Q),
      builtin_inputs self = true ->
      wacc_of self = Some w -> val w = Fin q -> (q == tg)%Q ->
      dcf_valuation self g tg years = None) /\
  (forall (fcff wacc : num) (f w : Q),
      val fcff = Fin f -> val wacc = Fin w ->
      (w < tg)%Q -> ~ (1 + w == 0)%Q -> 1 <= years ->
      exists fl : DcfFlows,
        dcf_flows fcff wacc g tg years = Ok fl /\
        val (terminal_fcff fl) = Fin (f * (1 + g) ^ years * (1 + tg)) /\
        val (terminal_value fl) = Fin (f * (1 + g) ^ years * (1 + tg) / (w - tg)) /\
        ((0 < f * (1 + g) ^ years * (1 + tg))%Q ->
         (f * (1 + g) ^ years * (1 + tg) / (w - tg) < 0)%Q)).
Proof.
  split.
  - intros self w q Hb Hw Hq Heq. unfold dcf_valuation.
    destruct (dcf_body self g tg years) as [d|e] eqn:H; [exfalso|reflexivity].
    apply dcf_body_inv in H.
    destruct H as (ocf & capex & w' & fl & iv & m & Hocf & Hcapex & Hw' & Hfl & _).
    rewrite Hw in Hw'. injection Hw' as <-.
    destruct (dcf_builtin_kinds self g tg years ocf capex w fl Hb Hocf Hcapex Hw Hfl)
      as (Kw & Ktf & _).
    apply dcf_flows_inv in Hfl. destruct Hfl as (_ & _ & Hdiv).
    rewrite num_div_py_zero in Hdiv; [discriminate Hdiv|exact Ktf| |].
    + simpl. rewrite Kw. reflexivity.
    + simpl. rewrite Hq. simpl. apply Qis_zero_true. rewrite Heq. ring.
  - intros fcff wacc f w Hf Hw Hlt Hw1 Hy.
    assert (Hz : Qis_zero (w - tg) = false).
    { apply Qis_zero_false. intros E. lra. }
    assert (Hdef : flows_defined fcff wacc tg).
    { right. split; simpl; rewrite Hw; simpl.
      - exact Hz.
      - apply Qis_zero_false. exact Hw1. }
    pose proof (dcf_flows_returns fcff wacc g tg years Hy Hdef) as Hfl.
    cbv zeta in Hfl. eexists. split; [exact Hfl|].
    assert (Htf : val (num_mul (projected fcff g years) (num_add (py 1) (py tg)))
                  = Fin (f * (1 + g) ^ years * (1 + tg))).
    { simpl. rewrite Hf, xq_pow_fin by lia. reflexivity. }
    cbn [terminal_fcff terminal_value].
    split; [exact Htf|]. split.
    + change (val (lift2 xq_div ?a ?b)) with (xq_div (val a) (val b)).
      rewrite Htf. simpl. rewrite Hw. simpl.
      change (w + - tg)%Q with (w - tg)%Q. rewrite Hz. reflexivity.
    + intros Hpos. apply Qdiv_pos_neg; [exact Hpos|lra].
Qed.

Lemma terminal_growth_unguarded_witness :
  dcf_valuation equal_rates 0.05 0.03 5 = None /\
  exists fl : DcfFlows,
    dcf_flows (py 100) (py 0.02) 0.05 0.03 5 = Ok fl /\
    val (terminal_value fl) = Fin (100 * (1 + 0.05) ^ 5 * (1 + 0.03) / (0.02 - 0.03)).
Proof.
  destruct (terminal_growth_unguarded 0.05 0.03 5) as [HA HB]. split.
  - eapply (HA equal_rates).
    + vm_compute. reflexivity.
    + vm_compute. reflexivity.
    + reflexivity.
    + vm_compute. reflexivity.
  - destruct (HB (py 100) (py 0.02) 100%Q 0.02%Q) as (fl & Hfl & _ & Htv & _).
    + reflexivity.
    + reflexivity.
    + vm_compute. reflexivity.
    + vm_compute. discriminate.
    + lia.
    + exists fl. split; [exact Hfl|exact Htv].
Defined.

(** C2 as stated fails: with a WACC of 2% against a terminal growth of
    3% dcf_valuation returns a result, with a negative enterprise value. *)
Lemma terminal_growth_counterexample :
  exists (d : gmap string num) (w ev : num),
    dcf_valuation low_rates 0.05 0.03 5 = Some d /\
    d !! "wacc" = Some w /\ exactly w 0.02 /\ (0.02 <= 0.03)%Q /\
    d !! "enterprise_value" = Some ev /\ num_ltb ev (py 0) = true.
Proof.
  eassert (Hw : entry (dcf_valuation low_rates 0.05 0.03 5) "wacc" = Some _)
    by (vm_compute; reflexivity).
  eassert (Hev : entry (dcf_valuation low_rates 0.05 0.03 5) "enterprise_value" = Some _)
    by (vm_compute; reflexivity).
  destruct (entry_Some _ _ _ Hw) as (d & Hd & Hdw).
  unfold entry in Hev. rewrite Hd in Hev. cbn [mbind option_bind] in Hev.
  eexists d, _, _. split; [exact Hd|]. split; [exact Hdw|].
  split; [vm_compute; reflexivity|].
  split; [vm_compute; discriminate|].
  split; [exact Hev|]. vm_compute. reflexivity.
Qed.

(** C3, as the code has it. When sharesOutstanding is absent the share
    count 1 is substituted: the result is the one of the snapshot that
    states a share count of 1. When sharesOutstanding is zero and every
    operand is a builtin number, the DCF result is unavailable. *)
Theorem shares_outstanding_default (self : EquityValuation) (g tg : Q) (years : Z) :
  (info self !! "sharesOutstanding" = None ->
   dcf_valuation self g tg years =
   dcf_valuation (with_info self (<["sharesOutstanding" := 1%Q]> (info self))) g tg years) /\
  (forall s : Q,
      info self !! "sharesOutstanding" = Some s -> (s == 0)%Q ->
      builtin_inputs self = true ->
      dcf_valuation self g tg years = None).
Proof.
  split.
  - intros Hnone.
    unfold dcf_valuation, dcf_body, calculate_wacc, wacc_body, estimate_cost_of_debt,
      calculate_beta, get.
    cbn [info risk_free_rate market_return cash_flow beta_data with_info].
    rewrite lookup_insert_eq, Hnone. rewrite !lookup_insert_ne by done. reflexivity.
  - intros s Hs Hz Hb. unfold dcf_valuation.
    destruct (dcf_body self g tg years) as [d|e] eqn:H; [exfalso|reflexivity].
    apply dcf_body_inv in H.
    destruct H as (ocf & capex & w & fl & iv & m & Hocf & Hcapex & Hw & Hfl & Hiv & _).
    destruct (dcf_builtin_kinds self g tg years ocf capex w fl Hb Hocf Hcapex Hw Hfl)
      as (_ & _ & Keq).
    rewrite num_div_py_zero in Hiv; [discriminate Hiv|exact Keq| |].
    + rewrite get_py. reflexivity.
    + rewrite get_py, Hs. simpl. apply Qis_zero_true. exact Hz.
Qed.

Lemma shares_outstanding_default_witness :
  dcf_valuation no_shares 0.05 0.03 5 =
  dcf_valuation (with_info no_shares (<["sharesOutstanding" := 1%Q]> (info no_shares)))
                0.05 0.03 5 /\
  dcf_valuation zero_shares 0.05 0.03 5 = None.
Proof.
  split.
  - apply (shares_outstanding_default no_shares 0.05 0.03 5). vm_compute. reflexivity.
  - apply (proj2 (shares_outstanding_default zero_shares 0.05 0.03 5) 0%Q).
    + vm_compute. reflexivity.
    + reflexivity.
    + vm_compute. reflexivity.
Defined.

(** C3 as stated fails: with no share count in the snapshot
    dcf_valuation returns an intrinsic value per share, the equity value
    divided by the substituted count 1. *)
Lemma missing_shares_counterexample :
  info no_shares !! "sharesOutstanding" = None /\
  exists (d : gmap string num) (iv ev : num),
    dcf_valuation no_shares 0.05 0.03 5 = Some d /\
    d !! "intrinsic_value" = Some iv /\
    d !! "equity_value" = Some ev /\
    iv = lift2 xq_div ev (py 1) /\ xq_eq (val iv) (val ev).
Proof.
  split; [vm_compute; reflexivity|].
  eassert (Hiv : entry (dcf_valuation no_shares 0.05 0.03 5) "intrinsic_value" = Some _)
    by (vm_compute; reflexivity).
  eassert (Hev : entry (dcf_valuation no_shares 0.05 0.03 5) "equity_value" = Some _)
    by (vm_compute; reflexivity).
  destruct (entry_Some _ _ _ Hiv) as (d & Hd & Hdiv).
  unfold entry in Hev. rewrite Hd in Hev. cbn [mbind option_bind] in Hev.
  eexists d, _, _. split; [exact Hd|]. split; [exact Hdiv|]. split; [exact Hev|].
  split; vm_compute; reflexivity.
Qed.

(** ** get_summary *)

Lemma update_lookup_None (summary : gmap string pyval) (d : gmap string num) (k : string) :
  d !! k = None -> update summary d !! k = summary !! k.
Proof.
  intros H. unfold update. apply lookup_union_r. rewrite lookup_fmap, H. reflexivity.
Qed.

Lemma update_lookup_Some (summary : gmap string pyval) (d : gmap string num)
    (k : string) (v : num) :
  d !! k = Some v -> update summary d !! k = Some (VNum v).
Proof.
  intros H. unfold update. apply lookup_union_Some_l. rewrite lookup_fmap, H. reflexivity.
Qed.

Lemma dcf_result_keys (self : EquityValuation) (g tg : Q) (years : Z)
    (d : gmap string num) (k : string) :
  dcf_valuation self g tg years = Some d ->
  k ∉ ["intrinsic_value"; "enterprise_value"; "equity_value";
       "current_fcff"; "wacc"; "margin_of_safety"] ->
  d !! k = None.
Proof.
  unfold dcf_valuation. intros H Hk.
  destruct (dcf_body self g tg years) as [d'|e] eqn:Hb; [|discriminate H].
  injection H as ->. apply dcf_body_inv in Hb.
  destruct Hb as (ocf & capex & w & fl & iv & m & _ & _ & _ & _ & _ & _ & _ & _ & _ & _ & Hdom).
  apply not_elem_of_dom. rewrite Hdom. set_solver.
Qed.

(** Solves [m !! k = None] for a chain of insertions at other keys. *)
Ltac absent_key :=
  repeat (rewrite lookup_insert_ne by done); apply lookup_empty.

Section Summary.
Variable self : EquityValuation.

Let current_price := get (info self) "currentPrice" (py 0).

(** Before the recommendation is derived, the summary holds the
    intrinsic value of the DCF result if there is one, and neither a
    discount nor a recommendation. *)
Lemma summary_base_lookup (k : string) :
  k ∈ ["intrinsic_value"; "discount"; "recommendation"; "recommendation_color"] ->
  summary_base self !! k =
  VNum <$> (d ← dcf_valuation self 0.05 0.03 5; d !! k).
Proof.
  intros Hk. unfold summary_base.
  assert (Hbeta : beta_dict (calculate_beta self) !! k = None).
  { unfold beta_dict. set_unfold in Hk.
    destruct Hk as [->|[->|[->|[->|[]]]]]; absent_key. }
  assert (Hratios : calculate_financial_ratios self !! k = None).
  { set_unfold in Hk.
    destruct Hk as [->|[->|[->|[->|[]]]]]; absent_ratio. }
  rewrite (update_lookup_None _ _ _ Hbeta), (update_lookup_None _ _ _ Hratios).
  set (s0 := <["industry" := _]> _).
  assert (Hs0 : s0 !! k = None).
  { unfold s0. set_unfold in Hk.
    destruct Hk as [->|[->|[->|[->|[]]]]]; absent_key. }
  destruct (dcf_valuation self 0.05 0.03 5) as [d|]; [|exact Hs0].
  cbn [mbind option_bind].
  case_bool_decide as Hd.
  - subst d. rewrite lookup_empty. exact Hs0.
  - destruct (d !! k) as [v|] eqn:Hv.
    + apply update_lookup_Some. exact Hv.
    + rewrite (update_lookup_None _ _ _ Hv). exact Hs0.
Qed.

(** The two ways [get_summary] ends. *)
Lemma get_summary_cases :
  match intrinsic_value_of self with
  | Some iv =>
      if num_gtb iv (py 0) then
        get_summary self =
        (ratio ← num_div (num_sub iv current_price) current_price;
         Ok (with_recommendation (summary_base self) (num_mul ratio (py 100))))
      else get_summary self = Ok (summary_base self)
  | None => get_summary self = Ok (summary_base self)
  end.
Proof.
  unfold get_summary, intrinsic_value_of.
  rewrite (summary_base_lookup "intrinsic_value") by set_solver.
  destruct (d ← dcf_valuation self 0.05 0.03 5; d !! "intrinsic_value") as [iv|];
    cbn [fmap option_fmap option_map from_option id entry_num mbind res_bind].
  - destruct (num_gtb iv (py 0)); reflexivity.
  - reflexivity.
Qed.

Lemma with_recommendation_lookup (summary : gmap string pyval) (discount : num) :
  with_recommendation summary discount !! "recommendation" =
    Some (VStr (recommendation discount).1) /\
  with_recommendation summary discount !! "discount" = Some (VNum discount) /\
  with_recommendation summary discount !! "intrinsic_value" =
    summary !! "intrinsic_value".
Proof.
  unfold with_recommendation. repeat split.
  - rewrite lookup_insert_ne by done. apply lookup_insert_eq.
  - rewrite !lookup_insert_ne by done. apply lookup_insert_eq.
  - rewrite !lookup_insert_ne by done. reflexivity.
Qed.

End Summary.

(** The if/elif chain of the program computes the rule of the
    specification, NaN and the infinities included. *)
Lemma recommendation_refines (discount : num) :
  (recommendation discount).1 = label (recommendation_spec discount).
Proof.
  unfold recommendation, recommendation_spec, num_gtb, num_ltb, num_leb.
  destruct (val discount) as [q| | |]; simpl; try reflexivity.
  destruct (Qle_bool q 20), (Qle_bool q 10), (Qle_bool (-20) q), (Qle_bool (-10) q);
    reflexivity.
Qed.

(** When [get_summary] returns a summary with a recommendation, the
    intrinsic value is there, positive, and the discount was divided. *)
Lemma get_summary_recommended (self : EquityValuation)
    (summary : gmap string pyval) (rec : pyval) :
  get_summary self = Ok summary ->
  summary !! "recommendation" = Some rec ->
  exists iv ratio : num,
    intrinsic_value_of self = Some iv /\
    num_gtb iv (py 0) = true /\
    num_div (num_sub iv (get (info self) "currentPrice" (py 0)))
            (get (info self) "currentPrice" (py 0)) = Ok ratio /\
    summary = with_recommendation (summary_base self) (num_mul ratio (py 100)).
Proof.
  intros Hs Hrec. pose proof (get_summary_cases self) as Hc.
  assert (Hbase : summary_base self !! "recommendation" = None).
  { rewrite summary_base_lookup by set_solver.
    destruct (dcf_valuation self 0.05 0.03 5) as [d|] eqn:Hd; [|reflexivity].
    cbn [mbind option_bind]. rewrite (dcf_result_keys _ _ _ _ _ _ Hd); [reflexivity|].
    rewrite !not_elem_of_cons. repeat split; try done. apply not_elem_of_nil. }
  destruct (intrinsic_value_of self) as [iv|].
  - destruct (num_gtb iv (py 0)) eqn:Hgt.
    + rewrite Hc in Hs.
      destruct (num_div _ _) as [ratio|e] eqn:Hdiv; [|discriminate Hs].
      cbn [mbind res_bind] in Hs. injection Hs as <-.
      exists iv, ratio. repeat split; assumption.
    + rewrite Hc in Hs. injection Hs as <-. congruence.
  - rewrite Hc in Hs. injection Hs as <-. congruence.
Qed.

(** C4. Whenever get_summary derives a recommendation,
    discount = (intrinsic_value - current_price) / current_price * 100,
    and the label is BUY above 20, ACCUMULATE in (10, 20], SELL below
    -20, REDUCE in [-20, -10) and NEUTRAL otherwise. *)
Theorem recommendation_thresholds (self : EquityValuation)
    (summary : gmap string pyval) (rec : pyval) :
  get_summary self = Ok summary ->
  summary !! "recommendation" = Some rec ->
  let current_price := get (info self) "currentPrice" (py 0) in
  exists iv ratio discount : num,
    summary !! "intrinsic_value" = Some (VNum iv) /\
    num_div (num_sub iv current_price) current_price = Ok ratio /\
    discount = num_mul ratio (py 100) /\
    summary !! "discount" = Some (VNum discount) /\
    (forall i c : Q,
        val iv = Fin i -> val current_price = Fin c -> ~ (c == 0)%Q ->
        val discount = Fin ((i - c) / c * 100)) /\
    rec = VStr (label (recommendation_spec discount)).
Proof.
  intros Hs Hrec cp.
  destruct (get_summary_recommended self summary rec Hs Hrec)
    as (iv & ratio & Hiv & _ & Hdiv & ->).
  destruct (with_recommendation_lookup (summary_base self) (num_mul ratio (py 100)))
    as (Lrec & Ldisc & Liv).
  exists iv, ratio, (num_mul ratio (py 100)).
  split.
  { rewrite Liv, summary_base_lookup by set_solver.
    unfold intrinsic_value_of in Hiv. rewrite Hiv. reflexivity. }
  split; [exact Hdiv|]. split; [reflexivity|]. split; [exact Ldisc|].
  split.
  - intros i c Hi Hc Hnz. apply num_div_inv in Hdiv. subst ratio.
    fold cp. simpl. rewrite Hi, Hc. simpl.
    apply Qis_zero_false in Hnz. rewrite Hnz. reflexivity.
  - rewrite Lrec in Hrec. injection Hrec as <-.
    rewrite recommendation_refines. reflexivity.
Qed.

Lemma recommendation_thresholds_witness :
  exists (summary : gmap string pyval) (iv ratio discount : num),
    get_summary acme = Ok summary /\
    summary !! "intrinsic_value" = Some (VNum iv) /\
    num_div (num_sub iv (py 50)) (py 50) = Ok ratio /\
    discount = num_mul ratio (py 100) /\
    summary !! "discount" = Some (VNum discount) /\
    VStr "COMPRAR" = VStr (label (recommendation_spec discount)).
Proof.
  assert (Hrec : summary_entry (get_summary acme) "recommendation" = Some (VStr "COMPRAR"))
    by (vm_compute; reflexivity).
  destruct (summary_entry_Some _ _ _ Hrec) as (summary & Hs & Hr).
  destruct (recommendation_thresholds acme summary _ Hs Hr)
    as (iv & ratio & discount & H1 & H2 & H3 & H4 & _ & H6).
  exists summary, iv, ratio, discount. repeat split; assumption.
Defined.

Lemma summary_base_no_recommendation (self : EquityValuation) :
  summary_base self !! "recommendation" = None /\
  summary_base self !! "discount" = None.
Proof.
  split; rewrite summary_base_lookup by set_solver;
    (destruct (dcf_valuation self 0.05 0.03 5) as [d|] eqn:Hd; [|reflexivity]);
    cbn [mbind option_bind];
    (rewrite (dcf_result_keys _ _ _ _ _ _ Hd); [reflexivity|]);
    rewrite !not_elem_of_cons; (repeat split; try done); apply not_elem_of_nil.
Qed.

(** C5, as the code has it. get_summary derives a recommendation and a
    discount only when the intrinsic value per share is available and
    greater than 0; current_price is not tested. For every input where
    the intrinsic value is unavailable or not greater than 0 the summary
    is returned and holds neither a recommendation nor a discount. *)
Theorem recommendation_guard (self : EquityValuation) :
  ((intrinsic_value_of self = None \/
    exists iv, intrinsic_value_of self = Some iv /\ num_gtb iv (py 0) = false) ->
   exists summary : gmap string pyval,
     get_summary self = Ok summary /\
     summary !! "recommendation" = None /\ summary !! "discount" = None) /\
  (forall summary : gmap string pyval,
      get_summary self = Ok summary ->
      (is_Some (summary !! "recommendation") <->
       exists iv, intrinsic_value_of self = Some iv /\ num_gtb iv (py 0) = true)).
Proof.
  pose proof (get_summary_cases self) as Hc.
  pose proof (summary_base_no_recommendation self) as [Hrec Hdisc].
  split.
  - intros [Hnone|(iv & Hiv & Hgt)]; exists (summary_base self).
    + rewrite Hnone in Hc. repeat split; assumption.
    + rewrite Hiv, Hgt in Hc. repeat split; assumption.
  - intros summary Hs. split.
    + intros [rec Hr].
      destruct (get_summary_recommended self summary rec Hs Hr)
        as (iv & ratio & Hiv & Hgt & _).
      exists iv. split; assumption.
    + intros (iv & Hiv & Hgt). rewrite Hiv, Hgt in Hc. rewrite Hc in Hs.
      destruct (num_div _ _) as [ratio|e]; [|discriminate Hs].
      cbn [mbind res_bind] in Hs. injection Hs as <-.
      eexists. apply with_recommendation_lookup.
Qed.

Lemma recommendation_guard_witness :
  (exists summary : gmap string pyval,
     get_summary zero_shares = Ok summary /\
     summary !! "recommendation" = None /\ summary !! "discount" = None) /\
  (exists summary : gmap string pyval,
     get_summary acme = Ok summary /\
     (is_Some (summary !! "recommendation") <->
      exists iv, intrinsic_value_of acme = Some iv /\ num_gtb iv (py 0) = true)).
Proof.
  split.
  - apply (proj1 (recommendation_guard zero_shares)).
    left. vm_compute. reflexivity.
  - assert (Hrec : summary_entry (get_summary acme) "recommendation" = Some (VStr "COMPRAR"))
      by (vm_compute; reflexivity).
    destruct (summary_entry_Some _ _ _ Hrec) as (summary & Hs & _).
    exists summary. split; [exact Hs|].
    apply (proj2 (recommendation_guard acme) summary Hs).
Defined.

(** C5 as stated fails: a recommendation is derived with a negative
    current price, and with no current price at all when the cells of
    the cash-flow frame are float64 (the discount is then infinite). *)
Lemma recommendation_price_counterexample :
  (num_gtb (get (info negative_price) "currentPrice" (py 0)) (py 0) = false /\
   exists summary : gmap string pyval,
     get_summary negative_price = Ok summary /\
     summary !! "recommendation" = Some (VStr "VENDER")) /\
  (info no_price_np !! "currentPrice" = None /\
   num_gtb (get (info no_price_np) "currentPrice" (py 0)) (py 0) = false /\
   exists summary : gmap string pyval,
     get_summary no_price_np = Ok summary /\
     summary !! "recommendation" = Some (VStr "COMPRAR") /\
     summary !! "discount" = Some (VNum (Num Np PInf))).
Proof.
  split.
  - split; [vm_compute; reflexivity|].
    apply summary_entry_Some. vm_compute. reflexivity.
  - split; [vm_compute; reflexivity|]. split; [vm_compute; reflexivity|].
    assert (Hrec : summary_entry (get_summary no_price_np) "recommendation"
                   = Some (VStr "COMPRAR")) by (vm_compute; reflexivity).
    assert (Hdisc : summary_entry (get_summary no_price_np) "discount"
                    = Some (VNum (Num Np PInf))) by (vm_compute; reflexivity).
    destruct (summary_entry_Some _ _ _ Hrec) as (summary & Hs & Hr).
    rewrite Hs in Hdisc. exists summary. repeat split; assumption.
Qed.

(** With builtin inputs the intrinsic value per share is a builtin
    number. *)
Lemma intrinsic_value_builtin (self : EquityValuation) (iv : num) :
  builtin_inputs self = true -> intrinsic_value_of self = Some iv -> kind_of iv = Py.
Proof.
  unfold intrinsic_value_of, dcf_valuation. intros Hb H.
  destruct (dcf_body self 0.05 0.03 5) as [d|e] eqn:Hd; [|discriminate H].
  cbn [mbind option_bind] in H. apply dcf_body_inv in Hd.
  destruct Hd as (ocf & capex & w & fl & iv' & m & Hocf & Hcapex & Hw & Hfl & Hiv & _ & Hl & _).
  rewrite Hl in H. injection H as ->.
  destruct (dcf_builtin_kinds self _ _ _ ocf capex w fl Hb Hocf Hcapex Hw Hfl)
    as (_ & _ & Keq).
  apply num_div_kind in Hiv. rewrite Hiv, Keq, get_py. reflexivity.
Qed.

(** C9. For an input whose current price is zero or absent while the
    intrinsic value of the DCF is positive, the cells and the beta being
    builtin numbers, the division of the discount raises
    ZeroDivisionError, which get_summary does not catch: no summary is
    returned. *)
Theorem discount_zero_price_escapes (self : EquityValuation) (iv : num) :
  builtin_inputs self = true ->
  intrinsic_value_of self = Some iv ->
  num_gtb iv (py 0) = true ->
  (default 0 (info self !! "currentPrice") == 0)%Q ->
  get_summary self = Raise ZeroDivisionError.
Proof.
  intros Hb Hiv Hgt Hz. pose proof (get_summary_cases self) as Hc.
  pose proof (intrinsic_value_builtin self iv Hb Hiv) as Hk.
  rewrite Hiv, Hgt in Hc. rewrite Hc, get_py.
  rewrite num_div_py_zero; [reflexivity| |reflexivity|].
  - simpl. rewrite Hk. reflexivity.
  - simpl. apply Qis_zero_true. exact Hz.
Qed.

Lemma discount_zero_price_escapes_witness :
  (info no_price !! "currentPrice" = None /\
   get_summary no_price = Raise ZeroDivisionError) /\
  (info zero_price !! "currentPrice" = Some 0%Q /\
   get_summary zero_price = Raise ZeroDivisionError).
Proof.
  split; (split; [vm_compute; reflexivity|]).
  - eapply (discount_zero_price_escapes no_price).
    + vm_compute. reflexivity.
    + vm_compute. reflexivity.
    + vm_compute. reflexivity.
    + vm_compute. reflexivity.
  - eapply (discount_zero_price_escapes zero_price).
    + vm_compute. reflexivity.
    + vm_compute. reflexivity.
    + vm_compute. reflexivity.
    + vm_compute. reflexivity.
Defined.

(** * Further properties of the engine *)

(** ** calculate_financial_ratios: absent metrics *)

(** X1. Up to the line where the block stops, a ratio whose metric is
    absent from the fundamentals is NaN, and a copied ratio whose metric
    is present is that number.  The three ratios written before the
    first product are always there; each of the ten copied after the
    five products, and each ratio stored as a percentage, is there when
    no metric multiplied up to its line is null, and is missing from the
    result otherwise. *)
Theorem ratios_absent_metric_nan (self : EquityValuation) (ratio : string) :
  (forall metric : string,
      In (ratio, metric) raw_fields ->
      if no_null self (multiplied_before ratio)
      then (info self !! metric = None ->
            calculate_financial_ratios self !! ratio = Some np_nan) /\
           (forall q : Q,
               info self !! metric = Some q ->
               calculate_financial_ratios self !! ratio = Some (py q))
      else calculate_financial_ratios self !! ratio = None) /\
  (forall metric : RatioMetric,
      In (ratio, metric) percentage_fields ->
      info_entry self metric = None ->
      if no_null self (multiplied_upto metric)
      then calculate_financial_ratios self !! ratio = Some np_nan
      else calculate_financial_ratios self !! ratio = None).
Proof.
  split.
  - intros metric Hin. simpl in Hin.
    repeat (destruct Hin as [Hin | Hin]; [inversion Hin; subst; clear Hin|]);
      try contradiction;
      ratio_line;
      cbn [no_null multiplied_before multiplied_upto early_ratios existsb String.eqb
           Ascii.eqb Bool.eqb orb forallb];
      null_cases self; cbn [negb andb]; try reflexivity;
      (split; [intros Hnone | intros q Hq]); unfold get;
      rewrite ?Hnone, ?Hq; reflexivity.
  - intros metric Hin Hnone. simpl in Hin.
    repeat (destruct Hin as [Hin | Hin]; [inversion Hin; subst; clear Hin|]);
      try contradiction;
      ratio_line; unfold pct; rewrite Hnone;
      unfold info_entry in Hnone; cbn [no_null multiplied_upto forallb];
      revert Hnone; null_cases self; cbn [negb andb];
      intros Hnone; try discriminate Hnone; reflexivity.
Qed.

Lemma ratios_absent_metric_nan_witness :
  calculate_financial_ratios acme !! "pe_ratio" = Some np_nan /\
  calculate_financial_ratios acme !! "roa" = Some np_nan /\
  calculate_financial_ratios null_roe !! "market_cap" = Some (py 1000) /\
  calculate_financial_ratios null_roe !! "pe_ratio" = None.
Proof.
  split; [|split; [|split]].
  - apply (proj1 (ratios_absent_metric_nan acme "pe_ratio") "trailingPE").
    + simpl. tauto.
    + vm_compute. reflexivity.
  - apply (proj2 (ratios_absent_metric_nan acme "roa") ReturnOnAssets).
    + simpl. tauto.
    + vm_compute. reflexivity.
  - apply (proj1 (ratios_absent_metric_nan null_roe "market_cap") "marketCap").
    + simpl. tauto.
    + vm_compute. reflexivity.
  - apply (proj1 (ratios_absent_metric_nan null_roe "pe_ratio") "trailingPE").
    simpl. tauto.
Defined.

(** X2. The dividend yield is never NaN and its line never raises: when
    none of the five metrics multiplied before it is null, it is exactly
    0 when the metric is absent, null or zero, and the metric times 100
    otherwise; when one of the five is null, the result has no dividend
    yield. *)
Theorem dividend_yield_zero_default (self : EquityValuation) :
  if no_null self (multiplied_upto DividendYield)
  then match info_entry self DividendYield with
       | Some (JNum d) =>
           ((d == 0)%Q ->
            calculate_financial_ratios self !! "dividend_yield" = Some (py 0)) /\
           (~ (d == 0)%Q ->
            calculate_financial_ratios self !! "dividend_yield" = Some (py (d * 100)))
       | Some JNull | None =>
           calculate_financial_ratios self !! "dividend_yield" = Some (py 0)
       end
  else calculate_financial_ratios self !! "dividend_yield" = None.
Proof.
  ratio_line. cbn [no_null multiplied_upto forallb].
  destruct (null_metric self ReturnOnEquity), (null_metric self ReturnOnAssets),
    (null_metric self GrossMargins), (null_metric self OperatingMargins),
    (null_metric self ProfitMargins); cbn [negb andb]; try reflexivity.
  unfold dividend_yield, num_truthy.
  destruct (info_entry self DividendYield) as [[|d]|]; try reflexivity.
  simpl. split; intros Hd.
  - apply Qis_zero_true in Hd. rewrite Hd. reflexivity.
  - apply Qis_zero_false in Hd. rewrite Hd. reflexivity.
Qed.

Lemma dividend_yield_zero_default_witness :
  calculate_financial_ratios payer !! "dividend_yield" = Some (py (0.04 * 100)) /\
  calculate_financial_ratios acme !! "dividend_yield" = Some (py 0) /\
  calculate_financial_ratios null_roe !! "dividend_yield" = None.
Proof.
  split; [|split].
  - pose proof (dividend_yield_zero_default payer) as H.
    apply (proj2 H). vm_compute. discriminate.
  - exact (dividend_yield_zero_default acme).
  - exact (dividend_yield_zero_default null_roe).
Defined.

(** ** calculate_wacc: when it degrades and what it returns *)

Section WaccResult.
Variable self : EquityValuation.
Variables (beta : num) (cost_of_debt : option Q) (tax_rate : Q).

Let mc := market_cap_of self.
Let td := total_debt_of self.



End WaccResult.










(** ** dcf_valuation: edge behaviour and the shape of the result *)

Lemma dcf_flows_no_years (fcff wacc : num) (g tg : Q) (years : Z) :
  years <= 0 -> dcf_flows fcff wacc g tg years = Raise IndexError.
Proof.
  intros Hy. unfold dcf_flows, range_1. rewrite seqZ_nil by exact Hy. reflexivity.
Qed.

(** X7. With a number of years that is zero or negative nothing is
    projected, the last projection does not exist and dcf_valuation
    reports the result as unavailable. *)
Theorem dcf_needs_a_positive_horizon (self : EquityValuation) (g tg : Q) (years : Z) :
  years <= 0 -> dcf_valuation self g tg years = None.
Proof.
  intros Hy. unfold dcf_valuation.
  destruct (dcf_body self g tg years) as [d|e] eqn:H; [exfalso|reflexivity].
  apply dcf_body_inv in H.
  destruct H as (ocf & capex & w & fl & iv & m & _ & _ & _ & Hfl & _).
  rewrite dcf_flows_no_years in Hfl by exact Hy. discriminate Hfl.
Qed.

Lemma dcf_needs_a_positive_horizon_witness :
  dcf_valuation acme 0.05 0.03 0 = None /\ dcf_valuation acme_np 0.05 0.03 (-3) = None.
Proof.
  split; apply dcf_needs_a_positive_horizon; lia.
Defined.

(** X8. When the cash-flow statement has no Operating Cash Flow row or
    no Capital Expenditure row, or such a row has no cell, dcf_valuation
    reports the result as unavailable. *)
Theorem dcf_needs_both_statement_rows
    (self : EquityValuation) (g tg : Q) (years : Z) (row : string) :
  row = "Operating Cash Flow" \/ row = "Capital Expenditure" ->
  cash_flow self !! row = None \/ cash_flow self !! row = Some [] ->
  dcf_valuation self g tg years = None.
Proof.
  intros Hrow Hmiss.
  assert (Hloc : forall c, loc_iloc0 (cash_flow self) row <> Ok c).
  { intros c. unfold loc_iloc0, getitem.
    destruct Hmiss as [-> | ->]; discriminate. }
  unfold dcf_valuation.
  destruct (dcf_body self g tg years) as [d|e] eqn:H; [exfalso|reflexivity].
  apply dcf_body_inv in H.
  destruct H as (ocf & capex & w & fl & iv & m & Hocf & Hcapex & _).
  destruct Hrow as [-> | ->]; [exact (Hloc ocf Hocf)|exact (Hloc capex Hcapex)].
Qed.

Lemma dcf_needs_both_statement_rows_witness :
  dcf_valuation no_statement 0.05 0.03 5 = None.
Proof.
  apply (dcf_needs_both_statement_rows no_statement 0.05 0.03 5 "Capital Expenditure").
  - right. reflexivity.
  - left. vm_compute. reflexivity.
Defined.

(** Every entry of a returned result. *)
Lemma dcf_body_entries (self : EquityValuation) (g tg : Q) (years : Z)
    (d : gmap string num) :
  dcf_body self g tg years = Ok d ->
  exists (ocf capex w : num) (fl : DcfFlows) (iv m : num),
    loc_iloc0 (cash_flow self) "Operating Cash Flow" = Ok ocf /\
    loc_iloc0 (cash_flow self) "Capital Expenditure" = Ok capex /\
    wacc_of self = Some w /\
    dcf_flows (num_add ocf capex) w g tg years = Ok fl /\
    num_div (equity_value_of self fl) (get (info self) "sharesOutstanding" (py 1)) = Ok iv /\
    num_div (num_sub iv (get (info self) "currentPrice" (py 0))) iv = Ok m /\
    d = <["intrinsic_value" := iv]>
        (<["enterprise_value" := enterprise_value fl]>
        (<["equity_value" := equity_value_of self fl]>
        (<["current_fcff" := num_add ocf capex]>
        (<["wacc" := w]>
        (<["margin_of_safety" := num_mul m (py 100)]> ∅))))).
Proof.
  unfold dcf_body. intros H.
  bind_inv H. rename a into ocf, E into Eocf.
  bind_inv H. rename a into capex, E into Ecapex.
  bind_inv H. rename a into w, E into Ew.
  bind_inv H. rename a into fl, E into Efl.
  bind_inv H. rename a into iv, E into Eiv.
  bind_inv H. rename a into m, E into Em.
  injection H as <-.
  exists ocf, capex, w, fl, iv, m.
  split; [reflexivity|]. split; [reflexivity|].
  split; [unfold wacc_of; unfold getitem in Ew;
          destruct (calculate_wacc _ _ _ _ !! "wacc"); [congruence|discriminate]|].
  split; [exact Efl|]. split; [exact Eiv|]. split; [exact Em|]. reflexivity.
Qed.

(** X9. A returned DCF result has exactly the six keys intrinsic_value,
    enterprise_value, equity_value, current_fcff, wacc and
    margin_of_safety; its equity value is the enterprise value minus
    (totalDebt - cash), each 0 when absent, and its intrinsic value is
    the equity value divided by sharesOutstanding, 1 when absent. *)
Theorem dcf_result_shape (self : EquityValuation) (g tg : Q) (years : Z)
    (d : gmap string num) :
  dcf_valuation self g tg years = Some d ->
  dom d = list_to_set dcf_keys /\
  exists ev eqv iv : num,
    d !! "enterprise_value" = Some ev /\
    d !! "equity_value" = Some eqv /\
    d !! "intrinsic_value" = Some iv /\
    eqv = num_sub ev (py (default 0%Q (info self !! "totalDebt")
                          - default 0%Q (info self !! "cash"))) /\
    iv = lift2 xq_div eqv (py (default 1%Q (info self !! "sharesOutstanding"))) /\
    (forall e : Q, val ev = Fin e ->
       val eqv = Fin (e - (default 0%Q (info self !! "totalDebt")
                           - default 0%Q (info self !! "cash")))).
Proof.
  unfold dcf_valuation. intros H.
  destruct (dcf_body self g tg years) as [d'|e] eqn:Hb; [|discriminate H].
  injection H as ->. apply dcf_body_entries in Hb.
  destruct Hb as (ocf & capex & w & fl & iv & m & _ & _ & _ & _ & Hiv & _ & ->).
  split; [reflexivity|].
  exists (enterprise_value fl), (equity_value_of self fl), iv.
  split; [reflexivity|]. split; [reflexivity|]. split; [reflexivity|].
  unfold equity_value_of in *. rewrite !get_py in *.
  split; [reflexivity|]. split; [apply num_div_inv; exact Hiv|].
  intros e He. simpl. rewrite He. reflexivity.
Qed.

Lemma dcf_result_shape_witness :
  exists d : gmap string num,
    dcf_valuation levered 0.05 0.03 5 = Some d /\
    dom d = list_to_set dcf_keys /\
    exists ev eqv : num,
      d !! "enterprise_value" = Some ev /\ d !! "equity_value" = Some eqv /\
      eqv = num_sub ev (py (400 - 0)).
Proof.
  eassert (Hw : entry (dcf_valuation levered 0.05 0.03 5) "wacc" = Some _)
    by (vm_compute; reflexivity).
  destruct (entry_Some _ _ _ Hw) as (d & Hd & _).
  destruct (dcf_result_shape levered 0.05 0.03 5 d Hd)
    as (Hdom & ev & eqv & iv & Hev & Heq & _ & Hbridge & _).
  exists d. split; [exact Hd|]. split; [exact Hdom|].
  exists ev, eqv. repeat split; assumption.
Defined.

(** X10. On builtin numbers a returned intrinsic value per share is
    never zero: a zero intrinsic value makes the margin of safety divide
    by zero and the whole DCF result unavailable. *)
Theorem intrinsic_value_never_zero_builtin
    (self : EquityValuation) (g tg : Q) (years : Z) (d : gmap string num) (iv : num) :
  builtin_inputs self = true ->
  dcf_valuation self g tg years = Some d ->
  d !! "intrinsic_value" = Some iv ->
  kind_of iv = Py /\ xq_is_zero (val iv) = false.
Proof.
  unfold dcf_valuation. intros Hb H Hiv.
  destruct (dcf_body self g tg years) as [d'|e] eqn:Hd; [|discriminate H].
  injection H as ->. apply dcf_body_inv in Hd.
  destruct Hd as (ocf & capex & w & fl & iv' & m & Hocf & Hcapex & Hw & Hfl & Hdiv
                  & Hm & Hl & _).
  rewrite Hl in Hiv. injection Hiv as ->.
  destruct (dcf_builtin_kinds self g tg years ocf capex w fl Hb Hocf Hcapex Hw Hfl)
    as (_ & _ & Keq).
  assert (Kiv : kind_of iv = Py).
  { apply num_div_kind in Hdiv. rewrite Hdiv, Keq, get_py. reflexivity. }
  split; [exact Kiv|].
  destruct (xq_is_zero (val iv)) eqn:Hz; [exfalso|reflexivity].
  rewrite num_div_py_zero in Hm; [discriminate Hm| |exact Kiv|exact Hz].
  rewrite get_py. simpl. rewrite Kiv. reflexivity.
Qed.

Lemma intrinsic_value_never_zero_builtin_witness :
  exists (d : gmap string num) (iv : num),
    dcf_valuation acme 0.05 0.03 5 = Some d /\
    d !! "intrinsic_value" = Some iv /\
    kind_of iv = Py /\ xq_is_zero (val iv) = false.
Proof.
  eassert (Hiv : entry (dcf_valuation acme 0.05 0.03 5) "intrinsic_value" = Some _)
    by (vm_compute; reflexivity).
  destruct (entry_Some _ _ _ Hiv) as (d & Hd & Hl).
  eexists d, _. split; [exact Hd|]. split; [exact Hl|].
  apply (intrinsic_value_never_zero_builtin acme 0.05 0.03 5 d _); try assumption.
  vm_compute. reflexivity.
Defined.

(** ** dcf_valuation: the flows in closed form *)

Lemma for_append_fmap {A B : Type} (f : A -> res B) (g : A -> B)
    (l : list A) (bs : list B) :
  for_append f l = Ok bs ->
  (forall a b, a ∈ l -> f a = Ok b -> b = g a) ->
  bs = g <$> l.
Proof.
  intros H Hg. apply for_append_inv in H.
  induction H as [|a b l bs Hab _ IH]; [reflexivity|].
  simpl. f_equal.
  - apply (Hg a b); [left|exact Hab].
  - apply IH. intros a' b' Ha'. apply Hg. right. exact Ha'.
Qed.

(** Returned flows are the ones the closed forms describe, and there is
    at least one year. *)
Lemma dcf_flows_explicit (fcff wacc : num) (g tg : Q) (years : Z) (fl : DcfFlows) :
  dcf_flows fcff wacc g tg years = Ok fl ->
  1 <= years /\
  fcff_projections fl = projected fcff g <$> range_1 years /\
  terminal_fcff fl = num_mul (projected fcff g years) (num_add (py 1) (py tg)) /\
  terminal_value fl = lift2 xq_div (terminal_fcff fl) (num_sub wacc (py tg)) /\
  present_values fl = discounted wacc <$> enumerate (fcff_projections fl) /\
  pv_terminal fl = lift2 xq_div (terminal_value fl) (discount_factor wacc years) /\
  enterprise_value fl = num_add (py_sum (present_values fl)) (pv_terminal fl).
Proof.
  intros H.
  assert (Hy : 1 <= years).
  { destruct (Z_le_gt_dec years 0) as [Hle|Hgt]; [|lia].
    rewrite dcf_flows_no_years in H by exact Hle. discriminate H. }
  split; [exact Hy|].
  unfold dcf_flows in H. rewrite projections_ok in H. cbn [mbind res_bind] in H.
  rewrite (last_projection _ _ _ Hy) in H. cbn [mbind res_bind] in H.
  bind_inv H. rename a into tv, E into Etv.
  bind_inv H. rename a into pvs, E into Epvs.
  rewrite discount_factor_ok in H by lia. cbn [mbind res_bind] in H.
  bind_inv H. rename a into pvt, E into Epvt.
  injection H as <-. cbn [fcff_projections terminal_fcff terminal_value present_values
                           pv_terminal enterprise_value].
  apply num_div_inv in Etv, Epvt. subst tv pvt.
  assert (Hpvs : pvs = discounted wacc <$> enumerate (projected fcff g <$> range_1 years)).
  { apply (for_append_fmap _ _ _ _ Epvs). intros [i p] c Hip Hc.
    apply enumerate_elem in Hip. destruct Hip as [Hi _].
    unfold discount_flow in Hc. cbn [fst snd] in Hc.
    rewrite discount_factor_ok in Hc by lia. cbn [mbind res_bind] in Hc.
    apply num_div_inv in Hc. exact Hc. }
  subst pvs. repeat split.
Qed.

Lemma projected_value (fcff : num) (f g : Q) (t : Z) :
  val fcff = Fin f -> 0 <= t -> val (projected fcff g t) = Fin (f * (1 + g) ^ t).
Proof.
  intros Hf Ht. unfold projected. simpl. rewrite Hf, xq_pow_fin by exact Ht. reflexivity.
Qed.

Lemma discounted_value (wacc p : num) (w a : Q) (i : Z) :
  val wacc = Fin w -> val p = Fin a -> ~ (1 + w == 0)%Q -> 0 <= i ->
  val (discounted wacc (i, p)) = Fin (a / (1 + w) ^ (i + 1)).
Proof.
  intros Hw Hp Hnz Hi. unfold discounted, discount_factor. simpl.
  rewrite Hw, Hp. simpl. rewrite xq_pow_fin by lia. simpl.
  assert (Hz : Qis_zero ((1 + w) ^ (i + 1)) = false).
  { apply Qis_zero_false. apply Qpower_not_0. exact Hnz. }
  rewrite Hz. reflexivity.
Qed.

(** X11. Returned flows have one projection and one present value per
    year, and for finite FCFF and WACC (WACC not -1) the flow of year t
    is FCFF * (1 + growth_rate)^t and its present value is that flow
    divided by (1 + wacc)^t. *)
Theorem dcf_flows_closed_form
    (fcff wacc : num) (g tg : Q) (years : Z) (fl : DcfFlows) (f w : Q) :
  dcf_flows fcff wacc g tg years = Ok fl ->
  val fcff = Fin f -> val wacc = Fin w -> ~ (1 + w == 0)%Q ->
  1 <= years /\
  length (fcff_projections fl) = Z.to_nat years /\
  length (present_values fl) = Z.to_nat years /\
  forall t : Z, 1 <= t <= years ->
    exists p v : num,
      fcff_projections fl !! Z.to_nat (t - 1) = Some p /\
      val p = Fin (f * (1 + g) ^ t) /\
      present_values fl !! Z.to_nat (t - 1) = Some v /\
      val v = Fin (f * (1 + g) ^ t / (1 + w) ^ t).
Proof.
  intros H Hf Hw Hnz.
  destruct (dcf_flows_explicit _ _ _ _ _ _ H) as (Hy & Hproj & _ & _ & Hpvs & _).
  split; [exact Hy|].
  assert (Hlen : length (fcff_projections fl) = Z.to_nat years).
  { rewrite Hproj, length_fmap. apply length_seqZ. }
  split; [exact Hlen|].
  split.
  { rewrite Hpvs. unfold enumerate. rewrite length_fmap, length_imap. exact Hlen. }
  intros t Ht.
  assert (Hp : fcff_projections fl !! Z.to_nat (t - 1) = Some (projected fcff g t)).
  { rewrite Hproj, list_lookup_fmap. unfold range_1.
    rewrite lookup_seqZ_lt by lia. simpl. do 2 f_equal. lia. }
  exists (projected fcff g t), (discounted wacc (t - 1, projected fcff g t)).
  split; [exact Hp|]. split; [apply projected_value; [exact Hf|lia]|].
  split.
  - rewrite Hpvs. unfold enumerate. rewrite list_lookup_fmap, list_lookup_imap, Hp.
    simpl. do 3 f_equal. lia.
  - rewrite (discounted_value wacc _ w (f * (1 + g) ^ t) (t - 1) Hw);
      [|apply projected_value; [exact Hf|lia]|exact Hnz|lia].
    replace (t - 1 + 1) with t by lia. reflexivity.
Qed.

Lemma dcf_flows_closed_form_witness :
  exists (fl : DcfFlows) (p v : num),
    dcf_flows (py 100) (py 0.09) 0.05 0.03 2 = Ok fl /\
    length (present_values fl) = 2%nat /\
    fcff_projections fl !! 1%nat = Some p /\ val p = Fin (100 * (1 + 0.05) ^ 2) /\
    present_values fl !! 1%nat = Some v /\
    val v = Fin (100 * (1 + 0.05) ^ 2 / (1 + 0.09) ^ 2).
Proof.
  eassert (Hfl : dcf_flows (py 100) (py 0.09) 0.05 0.03 2 = Ok _)
    by (vm_compute; reflexivity).
  destruct (dcf_flows_closed_form (py 100) (py 0.09) 0.05 0.03 2 _ 100 0.09 Hfl)
    as (_ & _ & Hlen & Hall).
  - reflexivity.
  - reflexivity.
  - vm_compute. discriminate.
  - destruct (Hall 2) as (p & v & Hp & Hpv & Hv & Hvv); [lia|].
    eexists _, p, v. split; [exact Hfl|]. repeat split; assumption.
Defined.

(** ** dcf_valuation: sign of the enterprise value *)

Lemma Qdiv_pos (a b : Q) : (0 < a -> 0 < b -> 0 < a / b)%Q.
Proof. intros Ha Hb. apply Qlt_shift_div_l; [exact Hb|lra]. Qed.

Lemma positive_add (a b : num) :
  positive_num a -> positive_num b -> positive_num (num_add a b).
Proof.
  intros (x & Hx & Px) (y & Hy & Py). exists (x + y)%Q.
  split; [simpl; rewrite Hx, Hy; reflexivity|lra].
Qed.

Lemma positive_mul (a b : num) :
  positive_num a -> positive_num b -> positive_num (num_mul a b).
Proof.
  intros (x & Hx & Px) (y & Hy & Py). exists (x * y)%Q.
  split; [simpl; rewrite Hx, Hy; reflexivity|nra].
Qed.

Lemma positive_div (a b : num) :
  positive_num a -> positive_num b -> positive_num (lift2 xq_div a b).
Proof.
  intros (x & Hx & Px) (y & Hy & Py). exists (x / y)%Q. split.
  - simpl. rewrite Hx, Hy. simpl.
    assert (Hz : Qis_zero y = false) by (apply Qis_zero_false; lra).
    rewrite Hz. reflexivity.
  - apply Qdiv_pos; assumption.
Qed.

Lemma positive_power (k : kind) (q : Q) (n : Z) :
  (0 < q)%Q -> 0 <= n -> positive_num (Num k (xq_pow (Fin q) n)).
Proof.
  intros Hq Hn. exists (q ^ n)%Q. split.
  - simpl. apply xq_pow_fin. exact Hn.
  - apply Qpower_0_lt. exact Hq.
Qed.

Lemma positive_sum (l : list num) :
  l <> [] -> Forall positive_num l -> positive_num (py_sum l).
Proof.
  intros Hne Hl. destruct l as [|x l]; [contradiction|].
  inversion Hl as [|? ? Hx Hl']; subst.
  unfold py_sum. simpl foldl.
  assert (Hacc : positive_num (num_add (py 0) x)).
  { destruct Hx as (q & Hq & Pq). exists (0 + q)%Q.
    split; [simpl; rewrite Hq; reflexivity|lra]. }
  revert Hacc. generalize (num_add (py 0) x). clear Hne Hl Hx.
  induction Hl' as [|y l Hy _ IH]; intros acc Hacc; [exact Hacc|].
  simpl. apply IH. apply positive_add; assumption.
Qed.

(** X12. For a positive current FCFF, a growth rate and a terminal
    growth above -1 and a WACC above the terminal growth, the flows are
    computed and the terminal value and the enterprise value are
    positive numbers. *)
Theorem enterprise_value_positive
    (fcff wacc : num) (g tg : Q) (years : Z) :
  positive_num fcff ->
  (exists w : Q, val wacc = Fin w /\ (tg < w)%Q) ->
  (-1 < g)%Q -> (-1 < tg)%Q -> 1 <= years ->
  exists fl : DcfFlows,
    dcf_flows fcff wacc g tg years = Ok fl /\
    positive_num (terminal_value fl) /\
    positive_num (enterprise_value fl).
Proof.
  intros Hf (w & Hw & Hwt) Hg Htg Hy.
  assert (Hdef : flows_defined fcff wacc tg).
  { right. split; simpl; rewrite Hw; simpl; apply Qis_zero_false; lra. }
  pose proof (dcf_flows_returns fcff wacc g tg years Hy Hdef) as Hfl.
  cbv zeta in Hfl. eexists. split; [exact Hfl|].
  cbn [terminal_value enterprise_value].
  assert (Hproj : forall t, 0 <= t -> positive_num (projected fcff g t)).
  { intros t Ht. apply positive_mul; [exact Hf|].
    apply positive_power; [lra|exact Ht]. }
  assert (Hfac : forall n, 0 <= n -> positive_num (discount_factor wacc n)).
  { intros n Hn. unfold discount_factor.
    assert (Hv : val (num_add (py 1) wacc) = Fin (1 + w))
      by (simpl; rewrite Hw; reflexivity).
    rewrite Hv. apply positive_power; [lra|exact Hn]. }
  assert (Htv : positive_num
                  (lift2 xq_div
                     (num_mul (projected fcff g years) (num_add (py 1) (py tg)))
                     (num_sub wacc (py tg)))).
  { apply positive_div.
    - apply positive_mul; [apply Hproj; lia|]. exists (1 + tg)%Q. split; [reflexivity|lra].
    - exists (w - tg)%Q. split; [simpl; rewrite Hw; reflexivity|lra]. }
  split; [exact Htv|].
  apply positive_add.
  - apply positive_sum.
    + unfold range_1. rewrite seqZ_cons by lia. discriminate.
    + apply Forall_forall. intros x Hx.
      apply list_elem_of_fmap in Hx. destruct Hx as ([i p] & -> & Hip).
      apply enumerate_elem in Hip. destruct Hip as [Hi Hp].
      apply list_elem_of_fmap in Hp. destruct Hp as (y & -> & Hyr).
      apply elem_of_seqZ in Hyr.
      apply positive_div; [apply Hproj; lia|apply Hfac; simpl; lia].
  - apply positive_div; [exact Htv|apply Hfac; lia].
Qed.

Lemma enterprise_value_positive_witness :
  exists fl : DcfFlows,
    dcf_flows (np 100) (np 0.09) 0.05 0.03 5 = Ok fl /\
    positive_num (terminal_value fl) /\ positive_num (enterprise_value fl).
Proof.
  apply (enterprise_value_positive (np 100) (np 0.09) 0.05 0.03 5).
  - exists 100%Q. split; [reflexivity|vm_compute; reflexivity].
  - exists 0.09%Q. split; [reflexivity|vm_compute; reflexivity].
  - vm_compute. reflexivity.
  - vm_compute. reflexivity.
  - lia.
Defined.

(** ** get_summary: when it raises *)

(** X13. get_summary raises nothing but ZeroDivisionError, and raises
    exactly when the intrinsic value is available, positive and a
    builtin number while the current price is zero or absent. *)
Theorem get_summary_raises_iff (self : EquityValuation) :
  (forall e : exn, get_summary self = Raise e -> e = ZeroDivisionError) /\
  ((exists e : exn, get_summary self = Raise e) <->
   exists iv : num,
     intrinsic_value_of self = Some iv /\ num_gtb iv (py 0) = true /\
     kind_of iv = Py /\ (default 0 (info self !! "currentPrice") == 0)%Q).
Proof.
  pose proof (get_summary_cases self) as Hc. rewrite get_py in Hc.
  set (c := default 0%Q (info self !! "currentPrice")) in *.
  destruct (intrinsic_value_of self) as [iv|].
  - destruct (num_gtb iv (py 0)) eqn:Hgt.
    + unfold num_div in Hc.
      change (kind_of (num_sub iv (py c))) with (kind_join (kind_of iv) Py) in Hc.
      change (kind_of (py c)) with Py in Hc.
      change (xq_is_zero (val (py c))) with (Qis_zero c) in Hc.
      rewrite kind_join_py_r in Hc.
      destruct (kind_of iv) eqn:Hk.
      * destruct (Qis_zero c) eqn:Hz; cbn [mbind res_bind] in Hc; rewrite Hc.
        -- split; [intros e He; congruence|]. split; [|intros _; eauto].
           intros _. exists iv. apply Qis_zero_true in Hz. repeat split; assumption.
        -- split; [intros e He; discriminate He|]. split; [intros [e He]; discriminate He|].
           intros (iv' & Hiv' & _ & _ & Hc0). apply Qis_zero_false in Hz. contradiction.
      * cbn [mbind res_bind] in Hc. rewrite Hc.
        split; [intros e He; discriminate He|]. split; [intros [e He]; discriminate He|].
        intros (iv' & Hiv' & _ & Hk' & _). injection Hiv' as <-. congruence.
    + rewrite Hc. split; [intros e He; discriminate He|].
      split; [intros [e He]; discriminate He|].
      intros (iv' & Hiv' & Hgt' & _). injection Hiv' as <-. congruence.
  - rewrite Hc. split; [intros e He; discriminate He|].
    split; [intros [e He]; discriminate He|].
    intros (iv' & Hiv' & _). discriminate Hiv'.
Qed.

Lemma get_summary_raises_iff_witness :
  exists iv : num,
    intrinsic_value_of no_price = Some iv /\ num_gtb iv (py 0) = true /\
    kind_of iv = Py /\ (default 0 (info no_price !! "currentPrice") == 0)%Q.
Proof.
  apply (proj1 (proj2 (get_summary_raises_iff no_price))).
  exists ZeroDivisionError. vm_compute. reflexivity.
Defined.

Lemma numpy_frame_loc (frame : gmap string (list num)) (row : string) (c : num) :
  numpy_frame frame = true -> loc_iloc0 frame row = Ok c -> kind_of c = Np.
Proof.
  unfold numpy_frame, loc_iloc0, getitem. intros Hb H.
  destruct (frame !! row) as [cells|] eqn:Hrow; [simpl in H|discriminate H].
  destruct cells as [|c' cells]; [discriminate H|]. injection H as ->.
  rewrite forallb_forall in Hb.
  assert (Hin : In (row, c :: cells) (map_to_list frame)).
  { apply list_elem_of_In, elem_of_map_to_list. exact Hrow. }
  apply Hb in Hin. simpl in Hin. apply andb_true_iff in Hin. destruct Hin as [Hc _].
  unfold is_py in Hc. destruct (kind_of c); [discriminate Hc|reflexivity].
Qed.

(** A summary is returned as soon as the intrinsic value, if there is
    one, is a numpy scalar. *)
Lemma get_summary_returns_on_numpy_value (self : EquityValuation) :
  (forall iv : num, intrinsic_value_of self = Some iv -> kind_of iv = Np) ->
  exists summary : gmap string pyval, get_summary self = Ok summary.
Proof.
  intros Hk. pose proof (get_summary_cases self) as Hc.
  destruct (intrinsic_value_of self) as [iv|]; [|eauto].
  destruct (num_gtb iv (py 0)); [|eauto].
  rewrite num_div_np in Hc; [cbn [mbind res_bind] in Hc; eauto|].
  change (kind_of (num_sub iv ?c)) with (kind_join (kind_of iv) (kind_of c)).
  rewrite (Hk iv eq_refl). reflexivity.
Qed.

(** X14. When the cells of the cash-flow frame are numpy scalars (a
    float64 frame), get_summary always returns a summary: no division
    raises, whatever the price, the share count and the rates. *)
Theorem get_summary_returns_on_numpy_frame (self : EquityValuation) :
  numpy_frame (cash_flow self) = true ->
  exists summary : gmap string pyval, get_summary self = Ok summary.
Proof.
  intros Hnp. apply get_summary_returns_on_numpy_value. intros iv Hiv.
  unfold intrinsic_value_of, dcf_valuation in Hiv.
  destruct (dcf_body self 0.05 0.03 5) as [d|e'] eqn:Hd; [|discriminate Hiv].
  cbn [mbind option_bind] in Hiv. apply dcf_body_inv in Hd.
  destruct Hd as (ocf & capex & w & fl & iv' & m & Hocf & _ & _ & Hfl & Hdiv & _ & Hl & _).
  rewrite Hl in Hiv. injection Hiv as ->.
  apply (numpy_frame_loc _ _ _ Hnp) in Hocf.
  apply dcf_flows_inv in Hfl. destruct Hfl as (_ & Kev & _).
  change (kind_of (num_add ocf capex)) with (kind_join (kind_of ocf) (kind_of capex)) in Kev.
  rewrite Hocf in Kev. change (kind_join (kind_join Np _) _) with Np in Kev.
  apply num_div_kind in Hdiv. unfold equity_value_of in Hdiv.
  change (kind_of (num_sub ?a ?b)) with (kind_join (kind_of a) (kind_of b)) in Hdiv.
  rewrite Kev in Hdiv. exact Hdiv.
Qed.

Lemma get_summary_returns_on_numpy_frame_witness :
  exists summary : gmap string pyval, get_summary no_price_np = Ok summary.
Proof.
  apply (get_summary_returns_on_numpy_frame no_price_np). vm_compute. reflexivity.
Defined.

(** ** get_summary: the label follows the discount *)

(** X15. The label is monotone in the discount: of two discounts, the
    greater (infinities included) never gets a more bearish label, in
    the order VENDER, REDUZIR, NEUTRO, ACUMULAR, COMPRAR. *)
Theorem recommendation_monotone (d1 d2 : num) :
  num_leb d1 d2 = true ->
  bullishness (recommendation d1).1 <= bullishness (recommendation d2).1.
Proof.
  unfold num_leb, recommendation, num_gtb, num_ltb.
  destruct (val d1) as [a| | |], (val d2) as [b| | |]; simpl;
    try discriminate; intros Hle;
    repeat match goal with
           | |- context [Qle_bool ?x ?y] =>
               let E := fresh "E" in destruct (Qle_bool x y) eqn:E
           end;
    simpl; try (vm_compute; discriminate);
    exfalso;
    repeat match goal with
           | H : Qle_bool _ _ = true |- _ => apply Qle_bool_iff in H
           | H : Qle_bool _ _ = false |- _ => apply Qle_bool_false in H
           end;
    lra.
Qed.

Lemma recommendation_monotone_witness :
  bullishness (recommendation (py 5)).1 <= bullishness (recommendation (py 15)).1.
Proof.
  apply (recommendation_monotone (py 5) (py 15)). vm_compute. reflexivity.
Defined.

(** ** get_summary: nothing is lost in the merges *)

(** Splits [k ∈ [k1; ...; kn]] into its cases. *)
Ltac key_cases H :=
  repeat (apply elem_of_cons in H;
          let E := fresh "E" in
          destruct H as [E|H]; [first [discriminate E | subst] |]);
  try (apply elem_of_nil in H; contradiction).

Lemma with_recommendation_other (summary : gmap string pyval) (discount : num) (k : string) :
  k ∉ ["discount"; "recommendation"; "recommendation_color"] ->
  with_recommendation summary discount !! k = summary !! k.
Proof.
  intros Hk. rewrite !not_elem_of_cons in Hk. destruct Hk as (H1 & H2 & H3 & _).
  unfold with_recommendation. rewrite !lookup_insert_ne by congruence. reflexivity.
Qed.

(** The entries of the summary before the recommendation is derived. *)
Lemma summary_base_entries (self : EquityValuation) :
  summary_base self !! "company_name"
    = Some (VStr (default "N/A" (info_text self !! "longName"))) /\
  summary_base self !! "sector"
    = Some (VStr (default "N/A" (info_text self !! "sector"))) /\
  summary_base self !! "industry"
    = Some (VStr (default "N/A" (info_text self !! "industry"))) /\
  (forall k v, calculate_financial_ratios self !! k = Some v ->
     summary_base self !! k = Some (VNum v)) /\
  (forall k v, beta_dict (calculate_beta self) !! k = Some v ->
     summary_base self !! k = Some (VNum v)) /\
  (forall d k v, dcf_valuation self 0.05 0.03 5 = Some d -> d !! k = Some v ->
     summary_base self !! k = Some (VNum v)).
Proof.
  unfold summary_base.
  set (s0 := <["industry" := _]> _).
  set (s1 := match dcf_valuation self 0.05 0.03 5 with
             | Some d => if bool_decide (d = ∅) then s0 else update s0 d
             | None => s0
             end).
  assert (Hid : forall k, k ∈ ["company_name"; "sector"; "industry"] ->
            update (update s1 (calculate_financial_ratios self))
                   (beta_dict (calculate_beta self)) !! k = s0 !! k).
  { intros k Hk.
    assert (Hb : beta_dict (calculate_beta self) !! k = None)
      by (unfold beta_dict; key_cases Hk; absent_key).
    assert (Hr : calculate_financial_ratios self !! k = None)
      by (key_cases Hk; absent_ratio).
    rewrite (update_lookup_None _ _ _ Hb), (update_lookup_None _ _ _ Hr).
    unfold s1. destruct (dcf_valuation self 0.05 0.03 5) as [d|] eqn:Hd; [|reflexivity].
    case_bool_decide; [reflexivity|].
    apply update_lookup_None. apply (dcf_result_keys _ _ _ _ _ _ Hd).
    intros Hin. key_cases Hk; key_cases Hin. }
  split; [rewrite Hid by (left); reflexivity|].
  split; [rewrite Hid by (right; left); reflexivity|].
  split; [rewrite Hid by (right; right; left); reflexivity|].
  split; [|split].
  - intros k v Hk.
    assert (Hin : k ∈ ratio_keys) by (exact (ratios_keys self k v Hk)).
    assert (Hb : beta_dict (calculate_beta self) !! k = None)
      by (unfold beta_dict, ratio_keys in *; key_cases Hin; absent_key).
    rewrite (update_lookup_None _ _ _ Hb). apply update_lookup_Some. exact Hk.
  - intros k v Hk. apply update_lookup_Some. exact Hk.
  - intros d k v Hd Hk.
    assert (Hin : k ∈ dcf_keys).
    { destruct (decide (k ∈ dcf_keys)) as [Hin|Hout]; [exact Hin|].
      rewrite (dcf_result_keys _ _ _ _ _ _ Hd Hout) in Hk. discriminate Hk. }
    assert (Hb : beta_dict (calculate_beta self) !! k = None)
      by (unfold beta_dict, dcf_keys in *; key_cases Hin; absent_key).
    assert (Hr : calculate_financial_ratios self !! k = None)
      by (unfold dcf_keys in *; key_cases Hin; absent_ratio).
    rewrite (update_lookup_None _ _ _ Hb), (update_lookup_None _ _ _ Hr).
    unfold s1. rewrite Hd. case_bool_decide as He.
    + subst d. rewrite lookup_empty in Hk. discriminate Hk.
    + apply update_lookup_Some. exact Hk.
Qed.

(** X16. A returned summary keeps every entry that went into it: the
    company name, sector and industry (N/A when absent), every ratio,
    the beta, alpha and r_squared, and every entry of the DCF result;
    the three merges and the recommendation overwrite none of them. *)
Theorem summary_keeps_every_entry (self : EquityValuation)
    (summary : gmap string pyval) :
  get_summary self = Ok summary ->
  summary !! "company_name"
    = Some (VStr (default "N/A" (info_text self !! "longName"))) /\
  summary !! "sector" = Some (VStr (default "N/A" (info_text self !! "sector"))) /\
  summary !! "industry" = Some (VStr (default "N/A" (info_text self !! "industry"))) /\
  (forall k v, calculate_financial_ratios self !! k = Some v ->
     summary !! k = Some (VNum v)) /\
  (forall k v, beta_dict (calculate_beta self) !! k = Some v ->
     summary !! k = Some (VNum v)) /\
  (forall d k v, dcf_valuation self 0.05 0.03 5 = Some d -> d !! k = Some v ->
     summary !! k = Some (VNum v)).
Proof.
  intros Hs.
  destruct (summary_base_entries self) as (Hn & Hsec & Hind & Hr & Hb & Hd).
  assert (Hcase : summary = summary_base self \/
                  exists discount, summary = with_recommendation (summary_base self) discount).
  { pose proof (get_summary_cases self) as Hc.
    destruct (intrinsic_value_of self) as [iv|].
    - destruct (num_gtb iv (py 0)).
      + rewrite Hc in Hs. destruct (num_div _ _) as [ratio|e]; [|discriminate Hs].
        cbn [mbind res_bind] in Hs. injection Hs as <-. right. eauto.
      + rewrite Hc in Hs. injection Hs as <-. left. reflexivity.
    - rewrite Hc in Hs. injection Hs as <-. left. reflexivity. }
  destruct Hcase as [->|[discount ->]]; [repeat split; assumption|].
  assert (Hkeep : forall k v, summary_base self !! k = Some v ->
            with_recommendation (summary_base self) discount !! k = Some v).
  { intros k v Hk. rewrite with_recommendation_other; [exact Hk|].
    destruct (summary_base_no_recommendation self) as [Hrec Hdisc].
    assert (Hcol : summary_base self !! "recommendation_color" = None).
    { rewrite summary_base_lookup
        by (rewrite !elem_of_cons; right; right; right; left; reflexivity).
      destruct (dcf_valuation self 0.05 0.03 5) as [d|] eqn:Hdcf; [|reflexivity].
      cbn [mbind option_bind]. rewrite (dcf_result_keys _ _ _ _ _ _ Hdcf); [reflexivity|].
      rewrite !not_elem_of_cons. repeat split; try done. apply not_elem_of_nil. }
    intros Hin. key_cases Hin; congruence. }
  repeat split; eauto.
Qed.

Lemma summary_keeps_every_entry_witness :
  exists summary : gmap string pyval,
    get_summary acme = Ok summary /\
    summary !! "company_name" = Some (VStr "Acme") /\
    summary !! "sector" = Some (VStr "N/A") /\
    summary !! "roe" = Some (VNum (py (0.15 * 100))).
Proof.
  assert (Hrec : summary_entry (get_summary acme) "recommendation" = Some (VStr "COMPRAR"))
    by (vm_compute; reflexivity).
  destruct (summary_entry_Some _ _ _ Hrec) as (summary & Hs & _).
  destruct (summary_keeps_every_entry acme summary Hs) as (Hn & Hsec & _ & Hr & _).
  exists summary. split; [exact Hs|]. split; [exact Hn|]. split; [exact Hsec|].
  apply Hr. vm_compute. reflexivity.
Defined.

(** ** comparable_companies_analysis *)

Lemma peer_fold_app (provider : string -> res (gmap string Q))
    (acc : list PeerRow) (peers : list string) :
  foldl (peer_step provider) acc peers =
  acc ++ comparable_companies_analysis provider peers.
Proof.
  unfold comparable_companies_analysis. revert acc.
  induction peers as [|p peers IH] using rev_ind; intros acc.
  - simpl. rewrite app_nil_r. reflexivity.
  - rewrite !foldl_snoc, (IH acc), (IH []). unfold peer_step.
    destruct (provider p); simpl; [rewrite app_assoc|]; reflexivity.
Qed.

(** X17. The peer table has one row per peer whose fundamentals could
    be fetched, in the order of the argument, repeated tickers included;
    peers whose fetch raised are skipped, so the table never has more
    rows than there are peers. *)
Theorem peers_are_the_fetched_ones
    (provider : string -> res (gmap string Q)) (peers : list string) :
  map peer_ticker (comparable_companies_analysis provider peers) =
    List.filter (fetched provider) peers /\
  (length (comparable_companies_analysis provider peers) <= length peers)%nat.
Proof.
  assert (H : map peer_ticker (comparable_companies_analysis provider peers) =
              List.filter (fetched provider) peers).
  { induction peers as [|p peers IH]; [reflexivity|].
    unfold comparable_companies_analysis. simpl foldl. rewrite peer_fold_app.
    rewrite map_app, IH. unfold peer_step, fetched. simpl.
    destruct (provider p); reflexivity. }
  split; [exact H|].
  rewrite <- (length_map peer_ticker), H. apply filter_length_le.
Qed.


